(** * TradingBotTelegram: the signal computations of [binance_lib.py] and
    [bin_lib_adv.py]

    The two library modules compute three signals from daily candles of the
    exchange: a moving-average crossover, a breakout against the extremes of
    a lookback window, and a volume level against its historical mean.

    Conventions of the embedding.
    - A Python [float] is the rational [Q] it stands for.  Comparisons are
      exact; every addition, subtraction, product and quotient is rounded to
      the nearest binary64 value, ties to even ([round]).  Overflow and
      not-a-number are not modelled: the one non-finite value the code builds,
      [float('inf')], is [Infinity] of [xfloat].  The two classifiers that
      take thresholds are given a second time on the primitive binary64
      floats ([Binary64]), to run the same examples on both.
    - A Python [int] is a [Z]; [len] of a list is [Z.of_nat (length _)].
    - Exceptions are values of [exn]; a computation that can raise is a
      [result]; a computation that also prints or calls the exchange is a
      [Py], which carries the trace of those effects.
    - The exchange is a [Client]: the two methods of python-binance the code
      calls, as functions. *)

From Stdlib Require Import ZArith QArith Qabs List String Ascii Bool Lia Lqa.
From Stdlib Require PrimFloat.
From Stdlib Require Import Permutation.
Import ListNotations.

Local Open Scope Z_scope.

(** ** Python runtime *)

Module Py.

Inductive exn : Type :=
| ValueError
| IndexError
| TypeError
| KeyError
| ZeroDivisionError
| BinanceAPIException.

Inductive result (A : Type) : Type :=
| Ok (a : A)
| Raise (e : exn).

Arguments Ok {A} a.
Arguments Raise {A} e.

(** The values the modules print or put on the two sides of a [+]. *)
Inductive object : Type :=
| Str (s : string)
| Int (n : Z)
| Float (x : Q).

Coercion Str : string >-> object.

(** What a run leaves behind besides its value: what it prints (an f-string
    as written, its holes not filled in) and the requests it sends to the
    exchange. *)
Inductive event : Type :=
| Print (o : object)
| Request (method symbol : string) (limit : option Z).

Definition trace : Type := list event.

Definition Py (A : Type) : Type := (trace * result A)%type.

Definition ret {A : Type} (a : A) : Py A := ([], Ok a).

Definition bind {A B : Type} (m : Py A) (k : A -> Py B) : Py B :=
  match m with
  | (t, Ok a) => let (t', r) := k a in (t ++ t', r)
  | (t, Raise e) => (t, Raise e)
  end.

Definition lift {A : Type} (r : result A) : Py A := ([], r).

Definition print (o : object) : Py unit := ([Print o], Ok tt).

(** [try: body except ...: handler].  [handler e] is [None] for an exception
    the [except] clause does not name: it goes on propagating. *)
Definition try {A : Type} (body : Py A) (handler : exn -> option (Py A)) : Py A :=
  match body with
  | (t, Ok a) => (t, Ok a)
  | (t, Raise e) =>
      match handler e with
      | Some h => let (t', r) := h in (t ++ t', r)
      | None => (t, Raise e)
      end
  end.

Definition value {A : Type} (m : Py A) : result A := snd m.
Definition output {A : Type} (m : Py A) : trace := fst m.

(** The pure fragment: exceptions without effects. *)
Definition rbind {A B : Type} (r : result A) (k : A -> result B) : result B :=
  match r with
  | Ok a => k a
  | Raise e => Raise e
  end.

(** A list comprehension [[f(x) for x in l]]: left to right, the first
    exception ends it. *)
Fixpoint comprehension {A B : Type} (f : A -> result B) (l : list A)
  : result (list B) :=
  match l with
  | [] => Ok []
  | x :: l' =>
      rbind (f x) (fun y =>
      rbind (comprehension f l') (fun ys => Ok (y :: ys)))
  end.

(** A [for] loop that threads the variables it assigns as [acc]. *)
Fixpoint for_each {A S : Type} (body : S -> A -> Py S) (l : list A) (acc : S)
  : Py S :=
  match l with
  | [] => ret acc
  | x :: l' => bind (body acc x) (for_each body l')
  end.

(** [l[i]] for a literal index [i >= 0]. *)
Definition item {A : Type} (l : list A) (i : nat) : result A :=
  match nth_error l i with
  | Some a => Ok a
  | None => Raise IndexError
  end.

Definition len {A : Type} (l : list A) : Z := Z.of_nat (List.length l).

(** [l[start:]] and [l[:stop]], with Python's reading of a negative bound as
    an offset from the end, clipped to the list. *)
Definition slice_from {A : Type} (start : Z) (l : list A) : list A :=
  if start <? 0
  then skipn (Z.to_nat (len l + start)) l
  else skipn (Z.to_nat start) l.

Definition slice_to {A : Type} (stop : Z) (l : list A) : list A :=
  if stop <? 0
  then firstn (Z.to_nat (len l + stop)) l
  else firstn (Z.to_nat stop) l.

(** *** Floating point

    A binary64 value has 53 significant bits and is a multiple of 2^-1074.
    [round] takes a rational to the nearest such value, ties to the even
    significand. *)

(** [a / b] to the nearest integer, ties to even, for [0 <= a] and [0 < b]. *)
Definition nearest_even (a b : Z) : Z :=
  let q := a / b in
  match 2 * (a mod b) ?= b with
  | Lt => q
  | Gt => q + 1
  | Eq => if Z.even q then q else q + 1
  end.

(** The [e] with [2^e <= n/d < 2^(e+1)]. *)
Definition floor_log2 (n d : positive) : Z :=
  let e := Z.log2 (Zpos n) - Z.log2 (Zpos d) in
  if (if 0 <=? e
      then Zpos d * 2 ^ e <=? Zpos n
      else Zpos d <=? Zpos n * 2 ^ (- e))
  then e
  else e - 1.

(** Rounding of [n/d > 0]: with [2^k] the unit in the last place at the
    magnitude of [n/d], the nearest multiple of [2^k]. *)
Definition round_pos (n d : positive) : Q :=
  let e := floor_log2 n d in
  let k := Z.max (e - 52) (-1074) in
  if 0 <=? k
  then inject_Z (nearest_even (Zpos n) (Zpos d * 2 ^ k) * 2 ^ k)
  else Qred (nearest_even (Zpos n * 2 ^ (- k)) (Zpos d) # Z.to_pos (2 ^ (- k))).

Definition round (q : Q) : Q :=
  let q := Qred q in
  match Qnum q with
  | Z0 => 0%Q
  | Zpos n => round_pos n (Qden q)
  | Zneg n => (- round_pos n (Qden q))%Q
  end.

Arguments round : simpl never.

(** [a + b], [a - b], [a * b] on floats, and [a / b] for a divisor that is
    not 0. *)
Definition fadd (a b : Q) : Q := round (a + b).
Definition fsub (a b : Q) : Q := round (a - b).
Definition fmul (a b : Q) : Q := round (a * b).
Definition truediv (a b : Q) : Q := round (a / b).

(** An [int] where a [float] is needed. *)
Definition of_int (n : Z) : Q := round (inject_Z n).

(** [a + b] on objects: text joins text, numbers add (an [int] next to a
    [float] is converted first), text and a number do not mix. *)
Definition add (a b : object) : result object :=
  match a, b with
  | Str s, Str t => Ok (Str (String.append s t))
  | Int m, Int n => Ok (Int (m + n))
  | Int m, Float y => Ok (Float (fadd (of_int m) y))
  | Float x, Int n => Ok (Float (fadd x (of_int n)))
  | Float x, Float y => Ok (Float (fadd x y))
  | Str _, _ | _, Str _ => Raise TypeError
  end.

(** [sum(l)] of floats: the built-in starts from [0] and adds left to right,
    each addition rounded (CPython up to 3.11; from 3.12 on the built-in
    also carries a correction term for the rounding of the partial sums). *)
Definition sum (l : list Q) : Q := fold_left fadd l 0%Q.

(** [a / b] on numbers: true division raises on a zero divisor. *)
Definition div (a b : Q) : result Q :=
  if Qeq_bool b 0 then Raise ZeroDivisionError else Ok (truediv a b).

Definition Qlt_bool (a b : Q) : bool := negb (Qle_bool b a).

(** [str.upper()] on ASCII text. *)
Definition upper_ascii (c : ascii) : ascii :=
  let n := nat_of_ascii c in
  if (97 <=? n)%nat && (n <=? 122)%nat then ascii_of_nat (n - 32) else c.

Fixpoint upper (s : string) : string :=
  match s with
  | EmptyString => EmptyString
  | String c s' => String (upper_ascii c) (upper s')
  end.

End Py.

Export Py.

Declare Scope py_scope.
Delimit Scope py_scope with py.
Notation "x <- m ;; k" := (bind m (fun x => k))
  (at level 100, m at next level, right associativity) : py_scope.
Notation "m ;; k" := (bind m (fun _ => k))
  (at level 100, right associativity) : py_scope.
Local Open Scope string_scope.
Local Open Scope list_scope.
Local Open Scope Z_scope.
Local Open Scope py_scope.

(** ** Candles and the exchange *)

(** A field of a row of the decoded JSON answer, by what [float(...)] makes
    of it. *)
Inductive cell : Type :=
| Numeric (x : Q)   (* a number, or text that reads as one: its value *)
| Garbled           (* text that does not read as a number *)
| Null.             (* null or a nested value: not text, not a number *)

Definition float (c : cell) : result Q :=
  match c with
  | Numeric x => Ok x
  | Garbled => Raise ValueError
  | Null => Raise TypeError
  end.

(** One daily candle as python-binance returns it:
    [[open time, open, high, low, close, volume, close time, ...]]. *)
Definition kline : Type := list cell.

(** The answer of [get_symbol_ticker]: a dict, [{'symbol': ..., 'price': ...}]
    when all is well. *)
Definition ticker : Type := list (string * cell).

Fixpoint lookup (key : string) (d : ticker) : option cell :=
  match d with
  | [] => None
  | (k, v) :: d' => if String.eqb k key then Some v else lookup key d'
  end.

(** [d[key]] *)
Definition getitem (d : ticker) (key : string) : result cell :=
  match lookup key d with
  | Some v => Ok v
  | None => Raise KeyError
  end.

(** [key in d] *)
Definition contains (d : ticker) (key : string) : bool :=
  match lookup key d with
  | Some _ => true
  | None => false
  end.

(** Truth value of a list or dict: empty is false. *)
Definition truthy {A : Type} (l : list A) : bool :=
  match l with
  | [] => false
  | _ :: _ => true
  end.

(** [binance.client.Client]: what the modules ask of it. *)
Record Client : Type := {
  get_klines : string -> string -> Z -> result (list kline);
  get_symbol_ticker : string -> result ticker
}.

Definition call_get_klines (client : Client) (symbol interval : string)
  (limit : Z) : Py (list kline) :=
  ([Request "get_klines" symbol (Some limit)],
   get_klines client symbol interval limit).

Definition call_get_symbol_ticker (client : Client) (symbol : string)
  : Py ticker :=
  ([Request "get_symbol_ticker" symbol None], get_symbol_ticker client symbol).

(** [except Exception as e]: every exception is handled. *)
Definition except_Exception {A : Type} (handler : Py A) : exn -> option (Py A) :=
  fun _ => Some handler.

(** ** binance_lib.py *)

(** Lines 2-37. *)
Definition get_binance_price_pb (client : Client) (symbol : string)
  : Py (option Q) :=
  try
    (ticker <- call_get_symbol_ticker client (upper symbol) ;;
     if truthy ticker && contains ticker "price"
     then
       price <- lift (rbind (getitem ticker "price") float) ;;
       ret (Some price)
     else
       print "Risposta API inaspettata per simbolo {symbol}: {ticker}" ;;
       ret None)
    (except_Exception
       (print "Errore durante il recupero del prezzo con python-binance: {e}" ;;
        ret None)).

(** The arithmetic mean as the code writes it: [sum(l) / len(l)]. *)
Definition mean (l : list Q) : result Q := div (sum l) (of_int (len l)).

(** Lines 39-74. *)
Definition get_binance_average_price_30d (client : Client) (symbol : string)
  : Py (option Q) :=
  try
    (klines <- call_get_klines client (upper symbol) "1d" 30 ;;
     if negb (truthy klines) || (len klines <? 30)
     then
       print "Dati storici insufficienti o non trovati per {symbol}. Trovati {len(klines) if klines else 0} giorni." ;;
       ret None
     else
       closing_prices <-
         lift (comprehension (fun kline => rbind (item kline 4) float) klines) ;;
       average_price <- lift (mean closing_prices) ;;
       ret (Some average_price))
    (except_Exception
       (print "Errore in get_binance_average_price_30d per simbolo {symbol}: {e}" ;;
        ret None)).

(** Lines 77-126. *)
Definition get_moving_averages (client : Client) (symbol : string)
  (short_period long_period : Z) : Py (option Q * option Q) :=
  if (short_period <=? 0) || (long_period <=? 0) || (long_period <? short_period)
  then
    print "Errore: i periodi delle medie mobili devono essere positivi e il periodo breve <= periodo lungo." ;;
    ret (None, None)
  else
    try
      (klines <- call_get_klines client (upper symbol) "1d" long_period ;;
       if negb (truthy klines) || (len klines <? long_period)
       then
         print "Dati storici insufficienti per calcolare SMA {long_period}d per {symbol}. Trovati {len(klines) if klines else 0} giorni." ;;
         ret (None, None)
       else
         closing_prices <-
           lift (comprehension (fun kline => rbind (item kline 4) float) klines) ;;
         long_sma <- lift (mean closing_prices) ;;
         let short_period_prices := slice_from (- short_period) closing_prices in
         short_sma <- lift (mean short_period_prices) ;;
         ret (Some short_sma, Some long_sma))
      (except_Exception
         (print "Errore nel calcolo delle medie mobili per simbolo {symbol}: {e}" ;;
          ret (None, None))).

(** Lines 129-171. *)
Definition generate_crossover_signal (short_ma long_ma : option Q)
  (proximity_threshold_percent : Q) : string :=
  match short_ma, long_ma with
  | Some short_ma, Some long_ma =>
      if Qeq_bool long_ma 0
      then "Dati MA non validi (MA lunga = 0)"
      else
        let difference := fsub short_ma long_ma in
        let relative_difference_percent :=
          fmul (truediv (Qabs difference) long_ma) 100 in
        if Qlt_bool proximity_threshold_percent relative_difference_percent
        then
          if Qlt_bool 0 difference then "Rialzista" else "Ribassista"
        else "Hold"
  | _, _ => "Dati MA non disponibili"
  end.

(** The default of the third parameter. *)
Definition default_proximity_threshold_percent : Q := 0.5.

(** A float that may be the [float('inf')] the breakout scan starts from. *)
Inductive xfloat : Type :=
| Finite (x : Q)
| Infinity.

(** [a < b] for a finite [a]. *)
Definition below (a : Q) (b : xfloat) : bool :=
  match b with
  | Finite y => Qlt_bool a y
  | Infinity => true
  end.

(** The body of the [for kline in klines] loop of [generate_breakout_signal]
    (lines 212-224): both fields are read before either extreme is assigned, and the inner
    [except (ValueError, IndexError)] leaves the extremes as they were. *)
Definition scan_kline (extremes : Q * xfloat) (kline : kline) : Py (Q * xfloat) :=
  let '(highest_high, lowest_low) := extremes in
  try
    (high <- lift (rbind (item kline 2) float) ;;
     low <- lift (rbind (item kline 3) float) ;;
     let highest_high :=
       if Qlt_bool highest_high high then high else highest_high in
     let lowest_low :=
       if below low lowest_low then Finite low else lowest_low in
     ret (highest_high, lowest_low))
    (fun e =>
       match e with
       | ValueError | IndexError =>
           Some (print "Errore nel parsing di una riga kline: {kline}. Errore: {e}" ;;
                 ret (highest_high, lowest_low))
       | _ => None
       end).

(** The final comparison of [generate_breakout_signal] (lines 238-244). *)
Definition breakout_label (current_price highest_high : Q) (lowest_low : xfloat)
  : string :=
  if Qlt_bool highest_high current_price then "Breakout Rialzista"
  else if below current_price lowest_low then "Breakout Ribassista"
  else "Consolidamento".

(** Lines 174-249. *)
Definition generate_breakout_signal (client : Client) (symbol : string)
  (lookback_period : Z) : Py string :=
  if lookback_period <=? 0
  then ret "Errore: Il lookback period deve essere positivo."
  else
    try
      (klines <- call_get_klines client (upper symbol) "1d" lookback_period ;;
       if negb (truthy klines) || (len klines <? lookback_period)
       then
         print "Dati storici insufficienti per breakout {lookback_period}d per {symbol}. Trovati {len(klines) if klines else 0} giorni." ;;
         ret "Dati storici insufficienti per breakout"
       else
         extremes <- for_each scan_kline klines (0%Q, Infinity) ;;
         let '(highest_high, lowest_low) := extremes in
         current_price <- get_binance_price_pb client symbol ;;
         match current_price with
         | None => ret "Errore nel recupero prezzo attuale per breakout"
         | Some current_price =>
             ret (breakout_label current_price highest_high lowest_low)
         end)
      (except_Exception
         (print "Errore nel calcolo del segnale di breakout per simbolo {symbol}: {e}" ;;
          ret "Errore interno nel calcolo breakout.")).

(** ** bin_lib_adv.py *)

(** Lines 16-52. *)
Definition get_current_volume (client : Client) (symbol : string)
  : Py (option Q) :=
  try
    (klines <- call_get_klines client (upper symbol) "1d" 1 ;;
     if negb (truthy klines) || (len klines =? 0)
     then
       print "DEBUG: Nessun dato kline trovato per il giorno corrente per {symbol}." ;;
       ret None
     else
       current_volume <-
         lift (rbind (item klines 0) (fun k => rbind (item k 5) float)) ;;
       ret (Some current_volume))
    (except_Exception
       (print "Errore nel recupero del volume corrente per {symbol}: {e}" ;;
        ret None)).

(** The two statements of [get_average_historical_volume] that compute
    [average_volume] from the answer of the exchange (lines 100 and 103): the
    volumes of [klines[:-1]], then their mean. *)
Definition average_closed_volume (klines : list kline) : result (list Q * Q) :=
  rbind (comprehension (fun kline => rbind (item kline 5) float)
           (slice_to (-1) klines)) (fun closing_volumes =>
  rbind (mean closing_volumes) (fun average_volume =>
  Ok (closing_volumes, average_volume))).

(** Lines 66-112.  Line 105 builds the text it prints with [+] on a [str]
    and the [int] that [len] returns. *)
Definition get_average_historical_volume (client : Client) (symbol : string)
  (lookback_period : Z) : Py (option Q) :=
  if lookback_period <=? 0
  then
    print "Errore: Il lookback period per il volume medio deve essere positivo." ;;
    ret None
  else
    try
      (klines <- call_get_klines client (upper symbol) "1d" (lookback_period + 1) ;;
       if negb (truthy klines) || (len klines <? lookback_period + 1)
       then
         print "Dati storici insufficienti per volume medio {lookback_period}d per {symbol}. Trovati {len(klines) if klines else 0} giorni." ;;
         ret None
       else
         computed <- lift (average_closed_volume klines) ;;
         let '(closing_volumes, average_volume) := computed in
         line <- lift (add (Str "Candele analizzate: ")
                           (Int (len closing_volumes))) ;;
         print line ;;
         ret (Some average_volume))
      (except_Exception
         (print "Errore nel calcolo del volume medio storico per {symbol}: {e}" ;;
          ret None)).

(** Lines 116-152. *)
Definition generate_volume_signal (current_volume avg_volume : option Q)
  (high_threshold_factor low_threshold_factor : Q) : string :=
  match current_volume, avg_volume with
  | Some current_volume, Some avg_volume =>
      if Qle_bool avg_volume 0 then "STABILE"
      else if Qlt_bool (fmul avg_volume high_threshold_factor) current_volume
      then "RIALZISTA"
      else if Qlt_bool current_volume (fmul avg_volume low_threshold_factor)
      then "RIBASSISTA"
      else "STABILE"
  | _, _ => "Dati Volume non disponibili"
  end.

(** The defaults of the two factors: the literals [1.5] and [0.7] are the
    binary64 values nearest to them. *)
Definition default_high_threshold_factor : Q := round 1.5.
Definition default_low_threshold_factor : Q := round 0.7.

(** ** telegram_interface.py

    The bot offers three buttons and answers a click with one message.  The
    model keeps which message is composed and from which values; the text of
    a message is one constructor per f-string of the handler, its holes as
    arguments (number formatting is not rendered).  Logging, and sending the
    message to the chat, are left out. *)

Definition CRYPTO_SYMBOL : string := "ETHUSDT".
Definition SHORT_MA_PERIOD : Z := 20.
Definition LONG_MA_PERIOD : Z := 50.
Definition MA_PROXIMITY_THRESHOLD_PERCENT : Q := 0.5.
Definition BREAKOUT_LOOKBACK_PERIOD : Z := 20.

(** [s.startswith(prefix)] *)
Definition startswith (s prefix : string) : bool := String.prefix prefix s.

(** The rows of inline buttons that [start] builds (lines 45-55): the text
    of a button and its [callback_data]. *)
Definition keyboard : list (list (string * string)) :=
  [ [ (String.append CRYPTO_SYMBOL " Info (Prezzo)",
       String.append "get_price_" CRYPTO_SYMBOL) ];
    [ ("Segnale Moving AVG",
       String.append "get_ma_signal_" CRYPTO_SYMBOL) ];
    [ ("Segnale Breakout",
       String.append "get_breakout_signal_" CRYPTO_SYMBOL) ] ].

Inductive message : Type :=
| Fallback                                   (* "..." *)
| PriceMessage (price : Q)                   (* line 92 *)
| PriceFailure                               (* line 94 *)
| MaFailure (signal : string)                (* line 109 *)
| MaMessage (signal : string) (ma_values : option (Q * Q))   (* lines 116-120 *)
| BreakoutFailure (signal : string)          (* line 133 *)
| BreakoutMessage (signal : string).         (* lines 135-138 *)

(** Lines 71-138 of [handle_button_click]: the message it composes for the
    [callback_data] of a click. *)
Definition handle_button_click (client : Client) (callback_data : string)
  : Py message :=
  if String.eqb callback_data (String.append "get_price_" CRYPTO_SYMBOL)
  then
    price <- get_binance_price_pb client CRYPTO_SYMBOL ;;
    match price with
    | Some price => ret (PriceMessage price)
    | None => ret PriceFailure
    end
  else if String.eqb callback_data (String.append "get_ma_signal_" CRYPTO_SYMBOL)
  then
    averages <- get_moving_averages client CRYPTO_SYMBOL
                  SHORT_MA_PERIOD LONG_MA_PERIOD ;;
    let '(short_ma, long_ma) := averages in
    let signal :=
      generate_crossover_signal short_ma long_ma MA_PROXIMITY_THRESHOLD_PERCENT in
    if startswith signal "Dati MA non"
    then ret (MaFailure signal)
    else
      let ma_values :=
        match short_ma, long_ma with
        | Some short_ma, Some long_ma => Some (short_ma, long_ma)
        | _, _ => None
        end in
      ret (MaMessage signal ma_values)
  else if String.eqb callback_data
            (String.append "get_breakout_signal_" CRYPTO_SYMBOL)
  then
    signal <- generate_breakout_signal client CRYPTO_SYMBOL
                BREAKOUT_LOOKBACK_PERIOD ;;
    if startswith signal "Errore"
       || String.eqb signal "Dati storici insufficienti per breakout"
    then ret (BreakoutFailure signal)
    else ret (BreakoutMessage signal)
  else ret Fallback.

(** ** The two classifiers on binary64

    The same two functions on the primitive floats of the kernel: the
    examples of the specification, and the inputs where a rounding decides
    the label, are run on both. *)

Module Binary64.

Import PrimFloat.

Definition generate_crossover_signal (short_ma long_ma : option PrimFloat.float)
  (proximity_threshold_percent : PrimFloat.float) : string :=
  match short_ma, long_ma with
  | Some short_ma, Some long_ma =>
      if (long_ma =? 0)%float
      then "Dati MA non validi (MA lunga = 0)"
      else
        let difference := (short_ma - long_ma)%float in
        let relative_difference_percent :=
          ((abs difference / long_ma) * 100)%float in
        if (proximity_threshold_percent <? relative_difference_percent)%float
        then
          if (0 <? difference)%float then "Rialzista" else "Ribassista"
        else "Hold"
  | _, _ => "Dati MA non disponibili"
  end.

Definition generate_volume_signal (current_volume avg_volume : option PrimFloat.float)
  (high_threshold_factor low_threshold_factor : PrimFloat.float) : string :=
  match current_volume, avg_volume with
  | Some current_volume, Some avg_volume =>
      if (avg_volume <=? 0)%float then "STABILE"
      else if (avg_volume * high_threshold_factor <? current_volume)%float
      then "RIALZISTA"
      else if (current_volume <? avg_volume * low_threshold_factor)%float
      then "RIBASSISTA"
      else "STABILE"
  | _, _ => "Dati Volume non disponibili"
  end.

End Binary64.

(** ** A concrete exchange

    The daily history of one listed symbol, oldest candle first, and the
    field of its ticker.  [get_klines] answers with the most recent [limit]
    candles, fewer when the history is shorter; any other symbol, and a limit
    that is not positive, are refused. *)
Definition exchange (listed : string) (history : list kline) (price : cell)
  : Client :=
  {| get_klines symbol interval limit :=
       if String.eqb symbol listed && (0 <? limit)
       then Ok (slice_from (- limit) history)
       else Raise BinanceAPIException;
     get_symbol_ticker symbol :=
       if String.eqb symbol listed
       then Ok [("symbol", Garbled); ("price", price)]
       else Raise BinanceAPIException |}.

(** ** Vocabulary of the statements *)

(** [a < b] when [b] may be infinite, as a proposition. *)
Definition Below (a : Q) (b : xfloat) : Prop :=
  match b with
  | Finite y => (a < y)%Q
  | Infinity => True
  end.

(** The mean of a list of floats as the code computes it: the rounded sum,
    divided by the length. *)
Definition float_mean (l : list Q) : Q := truediv (Py.sum l) (of_int (len l)).

(** The least positive binary64 value, and the grid every finite binary64
    value lies on, the integer multiples of it: that a float lies on this
    grid is all the statements need of it. *)
Definition least_positive : Q := 1 # (2 ^ 1074)%positive.

Definition binary64 (x : Q) : Prop :=
  exists z : Z, (x == z # (2 ^ 1074)%positive)%Q.

(** The last [n] elements of a list, all of it when it is shorter. *)
Definition lastn {A : Type} (n : nat) (l : list A) : list A :=
  skipn (List.length l - n) l.

(** Row [k] carries the number [x] in field [i]. *)
Definition numeric_at (i : nat) (k : kline) (x : Q) : Prop :=
  nth_error k i = Some (Numeric x).

(** The close and the volume of a row. *)
Definition close_of : kline -> Q -> Prop := numeric_at 4.
Definition volume_of : kline -> Q -> Prop := numeric_at 5.

(** The requests among the effects of a run. *)
Definition is_request (e : event) : bool :=
  match e with
  | Request _ _ _ => true
  | Print _ => false
  end.

Definition requests (t : trace) : list event := filter is_request t.

(** A well-formed candle, for the examples: open time, open, high, low,
    close, volume, close time. *)
Definition candle (high low close volume : Q) : kline :=
  [Numeric 0; Numeric close; Numeric high; Numeric low; Numeric close;
   Numeric volume; Numeric 0].

(** Field [i] of a row holds no number. *)
Definition unreadable (i : nat) (k : kline) : Prop :=
  forall x, ~ numeric_at i k x.

(** How the breakout scan sees a row.  Field [i] is unparsable when it is
    missing or is text that is not a number: reading it raises [IndexError]
    or [ValueError].  A row is malformed when the first of its high and low
    fields that does not read is unparsable, and well formed when both
    read. *)
Definition unparsable (i : nat) (k : kline) : bool :=
  match nth_error k i with
  | None | Some Garbled => true
  | Some (Numeric _) | Some Null => false
  end.

Definition readable (k : kline) : option (Q * Q) :=
  match nth_error k 2, nth_error k 3 with
  | Some (Numeric high), Some (Numeric low) => Some (high, low)
  | _, _ => None
  end.

Definition well_formed (k : kline) : bool :=
  match readable k with
  | Some _ => true
  | None => false
  end.

Definition malformed (k : kline) : bool :=
  match nth_error k 2 with
  | None | Some Garbled => true
  | Some (Numeric _) => unparsable 3 k
  | Some Null => false
  end.

(** The highs and lows of the well-formed rows of a window, in order. *)
Fixpoint readable_rows (klines : list kline) : list (Q * Q) :=
  match klines with
  | [] => []
  | k :: klines' =>
      match readable k with
      | Some row => row :: readable_rows klines'
      | None => readable_rows klines'
      end
  end.

(** The running maximum and minimum the scan keeps, from given starting
    values. *)
Definition highest (highs : list Q) (start : Q) : Q :=
  fold_left (fun hh high => if Qlt_bool hh high then high else hh) highs start.

Definition lowest (lows : list Q) (start : xfloat) : xfloat :=
  fold_left (fun ll low => if below low ll then Finite low else ll) lows start.

Definition extremes (rows : list (Q * Q)) (start : Q * xfloat) : Q * xfloat :=
  (highest (map fst rows) (fst start), lowest (map snd rows) (snd start)).

(** [b <= a] when [b] may be infinite. *)
Definition AtMost (b : xfloat) (a : Q) : Prop :=
  match b with
  | Finite y => (y <= a)%Q
  | Infinity => False
  end.

(** The warning of the scan for a row it skips. *)
Definition parse_warning : event :=
  Print "Errore nel parsing di una riga kline: {kline}. Errore: {e}".

(** Five days with one, and with two, rows whose high is not a number. *)
Definition five_days_one_bad : list kline :=
  [candle 5 1 2 10;
   [Numeric 0; Numeric 2; Garbled; Numeric 2; Numeric 3; Numeric 15; Numeric 0];
   candle 6 2 4 20; candle 7 3 6 30; candle 6 3 5 20].

Definition five_days_two_bad : list kline :=
  [candle 5 1 2 10;
   [Numeric 0; Numeric 2; Garbled; Numeric 2; Numeric 3; Numeric 15; Numeric 0];
   candle 6 2 4 20; candle 7 3 6 30;
   [Numeric 0; Numeric 5]].



(** A candle whose high, close and volume are null: neither text nor a
    number. *)
Definition null_candle : kline :=
  [Numeric 0; Numeric 2; Null; Numeric 1; Null; Null; Numeric 0].


Definition two_days_null : list kline := [null_candle; null_candle].

(** A client that does not cut its answer to the limit asked for. *)
Definition unlimited (history : list kline) (price : cell) : Client :=
  {| get_klines symbol interval limit := Ok history;
     get_symbol_ticker symbol := Ok [("symbol", Garbled); ("price", price)] |}.

(** Three days of a symbol, the last one still open. *)
Definition three_days : list kline :=
  [candle 5 1 2 10; candle 6 2 4 20; candle 7 3 6 30].

(** The label of a price against the well-formed rows of a window. *)
Definition window_label (current_price : Q) (klines : list kline) : string :=
  breakout_label current_price
    (highest (map fst (readable_rows klines)) 0)
    (lowest (map snd (readable_rows klines)) Infinity).

(** A window the scan gets through: no row with a field that is neither text
    nor a number. *)
Definition scannable (klines : list kline) : Prop :=
  Forall (fun k => well_formed k = true \/ malformed k = true) klines.

(** * Properties *)

Local Open Scope Q_scope.

(** ** Rounding *)

Lemma nearest_even_lower (a b : Z) :
  (0 < b)%Z -> (0 <= a)%Z -> (a / b <= nearest_even a b)%Z.
Proof.
  intros Hb Ha. unfold nearest_even.
  destruct (2 * (a mod b) ?= b)%Z; [destruct (Z.even (a / b)) | |]; lia.
Qed.

Lemma nearest_even_nonneg (a b : Z) :
  (0 < b)%Z -> (0 <= a)%Z -> (0 <= nearest_even a b)%Z.
Proof.
  intros Hb Ha. pose proof (nearest_even_lower a b Hb Ha).
  pose proof (Z.div_pos a b Ha Hb). lia.
Qed.

Lemma nearest_even_positive (a b : Z) :
  (0 < b)%Z -> (b <= a)%Z -> (0 < nearest_even a b)%Z.
Proof.
  intros Hb Ha. pose proof (nearest_even_lower a b Hb ltac:(lia)).
  pose proof (Z.div_str_pos a b ltac:(lia)). lia.
Qed.

Lemma round_pos_nonneg (n d : positive) : 0 <= round_pos n d.
Proof.
  unfold round_pos.
  set (k := Z.max (floor_log2 n d - 52) (-1074)).
  destruct (Z.leb_spec 0 k) as [Hk | Hk].
  - assert (0 < 2 ^ k)%Z by now apply Z.pow_pos_nonneg.
    assert (0 <= nearest_even (Z.pos n) (Z.pos d * 2 ^ k))%Z
      by (apply nearest_even_nonneg; lia).
    change 0 with (inject_Z 0). rewrite <- Zle_Qle. nia.
  - assert (0 <= nearest_even (Z.pos n * 2 ^ (- k)) (Z.pos d))%Z.
    { apply nearest_even_nonneg; [lia |].
      assert (0 < 2 ^ (- k))%Z by (apply Z.pow_pos_nonneg; lia). nia. }
    rewrite Qred_correct. unfold Qle. cbn [Qnum Qden]. lia.
Qed.

Lemma floor_log2_upper (n d : positive) :
  (floor_log2 n d <= Z.log2 (Z.pos n) - Z.log2 (Z.pos d))%Z.
Proof.
  unfold floor_log2. cbv zeta.
  repeat match goal with
         | |- context [if ?c then _ else _] => destruct c
         end; lia.
Qed.

Lemma round_pos_positive (n d : positive) :
  least_positive <= Z.pos n # d -> 0 < round_pos n d.
Proof.
  intros Hq. unfold least_positive, Qle in Hq. simpl in Hq.
  unfold round_pos.
  pose proof (floor_log2_upper n d) as He.
  set (e := floor_log2 n d) in *.
  set (k := Z.max (e - 52) (-1074)).
  destruct (Z.log2_spec (Z.pos n) ltac:(lia)) as [Hn _].
  destruct (Z.log2_spec (Z.pos d) ltac:(lia)) as [_ Hd].
  pose proof (Z.log2_nonneg (Z.pos n)) as Ha.
  pose proof (Z.log2_nonneg (Z.pos d)) as Hb.
  set (a := Z.log2 (Z.pos n)) in *. set (b := Z.log2 (Z.pos d)) in *.
  destruct (Z.leb_spec 0 k) as [Hk | Hk].
  - assert (H2 : (0 < 2 ^ k)%Z) by now apply Z.pow_pos_nonneg.
    assert (HA : (Z.pos d * 2 ^ k <= Z.pos n)%Z).
    { assert (k = e - 52)%Z by lia.
      assert (Z.pos d * 2 ^ k < 2 ^ (Z.succ b) * 2 ^ k)%Z by nia.
      rewrite <- Z.pow_add_r in H0 by lia.
      assert (2 ^ (Z.succ b + k) <= 2 ^ a)%Z by (apply Z.pow_le_mono_r; lia).
      lia. }
    assert (0 < nearest_even (Z.pos n) (Z.pos d * 2 ^ k))%Z
      by (apply nearest_even_positive; lia).
    change 0 with (inject_Z 0). rewrite <- Zlt_Qlt. nia.
  - assert (H2 : (0 < 2 ^ (- k))%Z) by (apply Z.pow_pos_nonneg; lia).
    assert (HA : (Z.pos d <= Z.pos n * 2 ^ (- k))%Z).
    { destruct (Z.eq_dec k (-1074)) as [-> | Hne].
      - change (- -1074)%Z with 1074%Z.
        change (Z.pos (2 ^ 1074)) with (2 ^ 1074)%Z in Hq. lia.
      - assert (k = e - 52)%Z by lia.
        assert (2 ^ a * 2 ^ (- k) <= Z.pos n * 2 ^ (- k))%Z by nia.
        rewrite <- Z.pow_add_r in H0 by lia.
        assert (2 ^ (Z.succ b) <= 2 ^ (a + - k))%Z by (apply Z.pow_le_mono_r; lia).
        lia. }
    assert (0 < nearest_even (Z.pos n * 2 ^ (- k)) (Z.pos d))%Z
      by (apply nearest_even_positive; lia).
    rewrite Qred_correct. unfold Qlt. cbn [Qnum Qden]. lia.
Qed.

Lemma round_wd (p q : Q) : p == q -> round p = round q.
Proof. intros H. unfold round. now rewrite (Qred_complete p q H). Qed.

Lemma round_zero : round 0 = 0.
Proof. reflexivity. Qed.

Lemma Qnum_sign (q : Q) :
  match Qnum q with
  | Z0 => q == 0
  | Zpos n => 0 < q
  | Zneg n => q < 0
  end.
Proof.
  destruct q as [[| n | n] d]; unfold Qeq, Qlt; simpl; lia.
Qed.

Lemma Qred_sign (q : Q) :
  match Qnum (Qred q) with
  | Z0 => q == 0
  | Zpos n => 0 < q
  | Zneg n => q < 0
  end.
Proof.
  pose proof (Qnum_sign (Qred q)) as Hs.
  destruct (Qnum (Qred q)); now rewrite (Qred_correct q) in Hs.
Qed.

Lemma round_nonneg (q : Q) : 0 <= q -> 0 <= round q.
Proof.
  intros H. unfold round. pose proof (Qred_sign q) as Hs.
  destruct (Qnum (Qred q)); [apply Qle_refl | apply round_pos_nonneg |].
  exfalso. apply (Qlt_not_le _ _ Hs H).
Qed.

Lemma round_nonpos (q : Q) : q <= 0 -> round q <= 0.
Proof.
  intros H. unfold round. pose proof (Qred_sign q) as Hs.
  destruct (Qnum (Qred q)) as [| n | n]; [apply Qle_refl | |].
  - exfalso. apply (Qlt_not_le _ _ Hs H).
  - pose proof (round_pos_nonneg n (Qden (Qred q))) as Hp.
    apply Qopp_le_compat in Hp. exact Hp.
Qed.

Lemma round_positive (q : Q) : least_positive <= q -> 0 < round q.
Proof.
  intros H. unfold round. pose proof (Qred_sign q) as Hs.
  assert (Hq : 0 < q) by (apply Qlt_le_trans with least_positive; [reflexivity | exact H]).
  destruct (Qnum (Qred q)) as [| n | n] eqn:En.
  - exfalso. rewrite Hs in Hq. discriminate Hq.
  - apply round_pos_positive.
    assert (E : Z.pos n # Qden (Qred q) = Qred q)
      by (destruct (Qred q); simpl in *; now subst).
    rewrite E, Qred_correct. exact H.
  - exfalso. apply (Qlt_irrefl 0). now apply Qlt_trans with q.
Qed.

Lemma round_negative (q : Q) : q <= - least_positive -> round q < 0.
Proof.
  intros H. unfold round. pose proof (Qred_sign q) as Hs.
  assert (Hq : q < 0) by (apply Qle_lt_trans with (- least_positive); [exact H | reflexivity]).
  destruct (Qnum (Qred q)) as [| n | n] eqn:En.
  - exfalso. rewrite Hs in Hq. discriminate Hq.
  - exfalso. apply (Qlt_irrefl 0). now apply Qlt_trans with q.
  - assert (E : Z.neg n # Qden (Qred q) = Qred q)
      by (destruct (Qred q); simpl in *; now subst).
    assert (Hp : 0 < round_pos n (Qden (Qred q))).
    { apply round_pos_positive.
      assert (E' : Z.pos n # Qden (Qred q) == - q).
      { transitivity (- (Z.neg n # Qden (Qred q))); [reflexivity |].
        rewrite E. now rewrite Qred_correct. }
      rewrite E'. apply Qopp_le_compat in H. now rewrite Qopp_involutive in H. }
    apply Qopp_lt_compat in Hp. exact Hp.
Qed.

Lemma same_denominator_gap (g : positive) (a b : Z) :
  b # g < a # g -> 1 # g <= (a # g) - (b # g).
Proof.
  unfold Qlt, Qle, Qminus, Qplus, Qopp. cbn [Qnum Qden].
  rewrite Pos2Z.inj_mul. intros H.
  assert (Hg : (0 < Z.pos g)%Z) by lia.
  assert (Hab : (b + 1 <= a)%Z) by nia.
  replace ((a * Z.pos g + - b * Z.pos g) * Z.pos g)%Z
    with ((a - b) * (Z.pos g * Z.pos g))%Z by ring.
  assert (0 < Z.pos g * Z.pos g)%Z by nia. nia.
Qed.

Lemma binary64_gap (x y : Q) :
  binary64 x -> binary64 y -> y < x -> least_positive <= x - y.
Proof.
  intros [a Ha] [b Hb] H. rewrite Ha, Hb in *.
  now apply same_denominator_gap.
Qed.

(** ** Comparisons and sums *)

Lemma Qlt_bool_iff (a b : Q) : Qlt_bool a b = true <-> (a < b)%Q.
Proof.
  unfold Qlt_bool. rewrite negb_true_iff. split.
  - intros H. apply Qnot_le_lt. intros Hle.
    apply Qle_bool_iff in Hle. congruence.
  - intros H. destruct (Qle_bool b a) eqn:E; [| reflexivity].
    apply Qle_bool_iff in E. exfalso. apply (Qlt_not_le _ _ H E).
Qed.

Lemma Qlt_bool_false_iff (a b : Q) : Qlt_bool a b = false <-> (b <= a)%Q.
Proof.
  unfold Qlt_bool. rewrite negb_false_iff. apply Qle_bool_iff.
Qed.

Lemma Qlt_bool_spec (a b : Q) : reflect (a < b)%Q (Qlt_bool a b).
Proof.
  destruct (Qlt_bool a b) eqn:E; constructor.
  - now apply Qlt_bool_iff.
  - apply Qlt_bool_false_iff in E. now apply Qle_not_lt.
Qed.

Lemma Qeq_bool_spec (a b : Q) : reflect (a == b)%Q (Qeq_bool a b).
Proof.
  destruct (Qeq_bool a b) eqn:E; constructor.
  - now apply Qeq_bool_iff.
  - intros H. apply Qeq_bool_iff in H. congruence.
Qed.

Lemma Qle_bool_spec (a b : Q) : reflect (a <= b)%Q (Qle_bool a b).
Proof.
  destruct (Qle_bool a b) eqn:E; constructor.
  - now apply Qle_bool_iff.
  - intros H. apply Qle_bool_iff in H. congruence.
Qed.

Lemma below_spec (a : Q) (b : xfloat) : reflect (Below a b) (below a b).
Proof.
  destruct b as [y |]; simpl.
  - apply Qlt_bool_spec.
  - constructor. exact I.
Qed.

(** ** generate_crossover_signal *)

Section Crossover.

Variables (short_ma long_ma threshold : Q).

(** The two values the code computes, every operation rounded. *)
Let difference : Q := fsub short_ma long_ma.

Let relative_difference_percent : Q :=
  fmul (truediv (Qabs difference) long_ma) 100.

Lemma crossover_unavailable (other : option Q) :
  generate_crossover_signal None other threshold = "Dati MA non disponibili" /\
  generate_crossover_signal other None threshold = "Dati MA non disponibili".
Proof. destruct other; split; reflexivity. Qed.

Lemma crossover_invalid :
  (long_ma == 0)%Q ->
  generate_crossover_signal (Some short_ma) (Some long_ma) threshold
  = "Dati MA non validi (MA lunga = 0)".
Proof.
  intros H. unfold generate_crossover_signal.
  destruct (Qeq_bool_spec long_ma 0); [reflexivity | contradiction].
Qed.

Lemma crossover_hold :
  ~ (long_ma == 0)%Q ->
  (relative_difference_percent <= threshold)%Q ->
  generate_crossover_signal (Some short_ma) (Some long_ma) threshold = "Hold".
Proof.
  intros Hl Hr. unfold generate_crossover_signal.
  destruct (Qeq_bool_spec long_ma 0); [contradiction |].
  cbv zeta. fold difference. fold relative_difference_percent.
  destruct (Qlt_bool_spec threshold relative_difference_percent) as [Hlt |];
    [| reflexivity].
  exfalso. apply (Qlt_not_le _ _ Hlt Hr).
Qed.

Lemma crossover_bullish :
  ~ (long_ma == 0)%Q ->
  (threshold < relative_difference_percent)%Q ->
  (0 < difference)%Q ->
  generate_crossover_signal (Some short_ma) (Some long_ma) threshold = "Rialzista".
Proof.
  intros Hl Hr Hs. unfold generate_crossover_signal.
  destruct (Qeq_bool_spec long_ma 0); [contradiction |].
  cbv zeta. fold difference. fold relative_difference_percent.
  destruct (Qlt_bool_spec threshold relative_difference_percent);
    [| contradiction].
  destruct (Qlt_bool_spec 0 difference); [reflexivity | contradiction].
Qed.

Lemma crossover_bearish :
  ~ (long_ma == 0)%Q ->
  (threshold < relative_difference_percent)%Q ->
  ~ (0 < difference)%Q ->
  generate_crossover_signal (Some short_ma) (Some long_ma) threshold = "Ribassista".
Proof.
  intros Hl Hr Hs. unfold generate_crossover_signal.
  destruct (Qeq_bool_spec long_ma 0); [contradiction |].
  cbv zeta. fold difference. fold relative_difference_percent.
  destruct (Qlt_bool_spec threshold relative_difference_percent);
    [| contradiction].
  destruct (Qlt_bool_spec 0 difference); [contradiction | reflexivity].
Qed.

(** The rounded difference has the sign of the exact one: two distinct
    binary64 values are at least the least positive value apart, which does
    not round to 0. *)
Lemma difference_positive :
  binary64 short_ma -> binary64 long_ma ->
  (0 < difference <-> long_ma < short_ma).
Proof.
  intros Hs Hl. unfold difference, fsub. split.
  - intros H. destruct (Qlt_le_dec long_ma short_ma) as [Hlt | Hle];
      [exact Hlt |].
    exfalso. assert (Hn : short_ma - long_ma <= 0) by lra.
    apply round_nonpos in Hn. apply (Qlt_not_le _ _ H Hn).
  - intros H. apply round_positive. now apply binary64_gap.
Qed.

End Crossover.

Lemma crossover_equal_averages (x threshold : Q) :
  (0 <= threshold)%Q -> ~ (x == 0)%Q ->
  generate_crossover_signal (Some x) (Some x) threshold = "Hold".
Proof.
  intros Ht Hx. apply crossover_hold; [exact Hx |].
  assert (Ed : fsub x x = 0).
  { unfold fsub. rewrite (round_wd (x - x) 0); [reflexivity | ring]. }
  rewrite Ed. change (Qabs 0) with 0.
  assert (Eq : truediv 0 x = 0).
  { unfold truediv. rewrite (round_wd (0 / x) 0); [reflexivity |].
    unfold Qdiv. ring. }
  rewrite Eq. change (fmul 0 100) with 0. exact Ht.
Qed.

Lemma binary64_integer (z : Z) : binary64 (inject_Z z).
Proof.
  exists (z * Z.pos (2 ^ 1074))%Z. unfold Qeq, inject_Z. cbn [Qnum Qden]. ring.
Qed.

(** C4, as the code has it.  On binary64 averages and for a threshold
    [t >= 0]: a missing average gives the unavailable label; a long average
    equal to 0 the invalid-MA label; otherwise, with the relative difference
    [|short - long| / long * 100] as the code computes it (the difference,
    the quotient and the product each rounded to binary64), the signal is
    "Hold" when it is at most [t], "Rialzista" when it exceeds [t] and
    [short > long], and "Ribassista" in the remaining case.  Two equal
    non-zero averages always give "Hold". *)
Theorem generate_crossover_signal_cases (short_ma long_ma t : Q) :
  (0 <= t)%Q ->
  binary64 short_ma -> binary64 long_ma ->
  let rel := fmul (truediv (Qabs (fsub short_ma long_ma)) long_ma) 100 in
  let signal := generate_crossover_signal (Some short_ma) (Some long_ma) t in
  (forall other,
      generate_crossover_signal None other t = "Dati MA non disponibili" /\
      generate_crossover_signal other None t = "Dati MA non disponibili") /\
  ((long_ma == 0)%Q -> signal = "Dati MA non validi (MA lunga = 0)") /\
  (~ (long_ma == 0)%Q -> (rel <= t)%Q -> signal = "Hold") /\
  (~ (long_ma == 0)%Q -> (t < rel)%Q -> (long_ma < short_ma)%Q ->
     signal = "Rialzista") /\
  (~ (long_ma == 0)%Q -> (t < rel)%Q -> ~ (long_ma < short_ma)%Q ->
     signal = "Ribassista") /\
  (~ (long_ma == 0)%Q ->
     generate_crossover_signal (Some long_ma) (Some long_ma) t = "Hold").
Proof.
  intros Ht Hs Hl rel signal.
  pose proof (difference_positive short_ma long_ma Hs Hl) as Hd.
  split; [intros other; apply crossover_unavailable |].
  split; [apply crossover_invalid |].
  split; [apply crossover_hold |].
  split; [intros Hnz Hr Hlt; apply crossover_bullish; tauto |].
  split; [intros Hnz Hr Hlt; apply crossover_bearish; tauto |].
  intros Hx. now apply crossover_equal_averages.
Qed.

(** At the default threshold of 0.5 percent; and two relative differences
    that meet the threshold exactly: 105 against 100 at 5 percent is computed
    as 5 and is "Hold", 107 against 100 at 7 percent is computed as
    7.000000000000001 and is "Rialzista". *)
Example crossover_examples :
  let t := default_proximity_threshold_percent in
  generate_crossover_signal (Some 105) (Some 100) t = "Rialzista" /\
  generate_crossover_signal (Some (round 100.1)) (Some 100) t = "Hold" /\
  generate_crossover_signal (Some 95) (Some 100) t = "Ribassista" /\
  generate_crossover_signal (Some 105) (Some 100) 5 = "Hold" /\
  generate_crossover_signal (Some 107) (Some 100) 7 = "Rialzista" /\
  generate_crossover_signal (Some 4) (Some 3) (round 33.33333333333333) = "Hold".
Proof. repeat split; vm_compute; reflexivity. Qed.

Lemma generate_crossover_signal_cases_witness :
  (0 <= 0.5)%Q /\ binary64 105 /\ binary64 100 /\
  generate_crossover_signal (Some 105) (Some 100) 0.5 = "Rialzista" /\
  generate_crossover_signal (Some 100) (Some 100) 0.5 = "Hold".
Proof.
  assert (Ht : (0 <= 0.5)%Q) by (unfold Qle; simpl; lia).
  assert (H105 : binary64 105) by exact (binary64_integer 105).
  assert (H100 : binary64 100) by exact (binary64_integer 100).
  split; [exact Ht |]. split; [exact H105 |]. split; [exact H100 |].
  destruct (generate_crossover_signal_cases 105 100 0.5 Ht H105 H100)
    as (_ & _ & _ & Hbull & _ & Hsame).
  split.
  - apply Hbull.
    + intros H; discriminate H.
    + vm_compute. reflexivity.
    + reflexivity.
  - apply Hsame. intros H; discriminate H.
Defined.

(** C4 as stated fails at the threshold: with the relative difference taken
    exactly, 107 against 100 is 7 percent, which does not exceed a threshold
    of 7; the code computes [7 / 100] and then [* 100] in binary64, gets
    7.000000000000001 and returns "Rialzista". *)
Lemma generate_crossover_signal_rounding_counterexample :
  Qabs (107 - 100) / 100 * 100 <= 7 /\
  generate_crossover_signal (Some 107) (Some 100) 7 = "Rialzista" /\
  ~ (forall short_ma long_ma t,
        0 <= t -> ~ long_ma == 0 ->
        Qabs (short_ma - long_ma) / long_ma * 100 <= t ->
        generate_crossover_signal (Some short_ma) (Some long_ma) t = "Hold").
Proof.
  assert (Hexact : Qabs (107 - 100) / 100 * 100 <= 7)
    by (intros H; discriminate H).
  assert (Hcode : generate_crossover_signal (Some 107) (Some 100) 7 = "Rialzista")
    by (vm_compute; reflexivity).
  split; [exact Hexact |]. split; [exact Hcode |].
  intros H. specialize (H 107 100 7).
  rewrite H in Hcode; [discriminate Hcode | | | exact Hexact];
    intros E; discriminate E.
Qed.

(** ** The breakout comparison *)

Section BreakoutLabel.

Variables (current_price highest_high : Q) (lowest_low : xfloat).

Ltac by_comparisons :=
  unfold breakout_label;
  destruct (Qlt_bool_spec highest_high current_price);
  destruct (below_spec current_price lowest_low);
  split; intros H;
  solve [ reflexivity | discriminate H | tauto ].

Lemma breakout_label_bullish :
  breakout_label current_price highest_high lowest_low = "Breakout Rialzista"
  <-> highest_high < current_price.
Proof. by_comparisons. Qed.

Lemma breakout_label_bearish :
  breakout_label current_price highest_high lowest_low = "Breakout Ribassista"
  <-> ~ highest_high < current_price /\ Below current_price lowest_low.
Proof. by_comparisons. Qed.

Lemma breakout_label_consolidation :
  breakout_label current_price highest_high lowest_low = "Consolidamento"
  <-> ~ highest_high < current_price /\ ~ Below current_price lowest_low.
Proof. by_comparisons. Qed.

End BreakoutLabel.

(** C5, as the code has it.  The label is "Breakout Rialzista" exactly when
    [current_price > highest_high], "Breakout Ribassista" exactly when that
    fails and [current_price < lowest_low], and "Consolidamento" in the
    remaining case.  A price equal to the highest high never gives the
    bullish label; it gives "Consolidamento" when it is not below the lowest
    low, which holds whenever [lowest_low <= highest_high]. *)
Theorem breakout_label_cases (current_price highest_high : Q)
  (lowest_low : xfloat) :
  let label := breakout_label current_price highest_high lowest_low in
  (label = "Breakout Rialzista" <-> (highest_high < current_price)%Q) /\
  (label = "Breakout Ribassista" <->
     ~ (highest_high < current_price)%Q /\ Below current_price lowest_low) /\
  (label = "Consolidamento" <->
     ~ (highest_high < current_price)%Q /\ ~ Below current_price lowest_low) /\
  ((current_price == highest_high)%Q -> label <> "Breakout Rialzista") /\
  ((current_price == highest_high)%Q -> ~ Below highest_high lowest_low ->
     label = "Consolidamento").
Proof.
  intros label.
  split; [apply breakout_label_bullish |].
  split; [apply breakout_label_bearish |].
  split; [apply breakout_label_consolidation |].
  split.
  - intros E H. apply breakout_label_bullish in H. rewrite E in H.
    apply (Qlt_irrefl _ H).
  - intros E Hlow. apply breakout_label_consolidation. split.
    + rewrite E. apply Qlt_irrefl.
    + intros Hb. apply Hlow. destruct lowest_low; simpl in *; [| exact I].
      now rewrite <- E.
Qed.

Lemma breakout_label_cases_witness :
  breakout_label 5 5 (Finite 3) = "Consolidamento" /\
  breakout_label 5 5 (Finite 3) <> "Breakout Rialzista".
Proof.
  destruct (breakout_label_cases 5 5 (Finite 3)) as (_ & _ & _ & Hne & Hc).
  split.
  - apply Hc; [reflexivity | intros H; discriminate H].
  - apply Hne. reflexivity.
Defined.

(** C5 as stated fails: a price equal to the highest high and below the
    lowest low gets the bearish label, not "Consolidamento".  The function
    gets there on a window without a well-formed row, where the highest high
    is still 0.0 and the lowest low still infinite, at a price of 0. *)
Lemma breakout_label_equal_high_counterexample :
  breakout_label 5 5 (Finite 7) = "Breakout Ribassista" /\
  value (generate_breakout_signal
           (exchange "ETHUSDT" [[Garbled]] (Numeric 0)) "ETHUSDT" 1)
  = Ok "Breakout Ribassista" /\
  ~ (forall current_price highest_high lowest_low,
        (current_price == highest_high)%Q ->
        breakout_label current_price highest_high lowest_low = "Consolidamento").
Proof.
  split; [reflexivity |]. split; [reflexivity |].
  intros H. specialize (H 5%Q 5%Q (Finite 7) (Qeq_refl 5)). discriminate H.
Qed.

(** ** generate_volume_signal *)

Section VolumeSignal.

Variables (current_volume avg_volume high low : Q).

Let signal : string :=
  generate_volume_signal (Some current_volume) (Some avg_volume) high low.

(** The two thresholds as the code computes them: rounded products. *)
Let high_threshold : Q := fmul avg_volume high.
Let low_threshold : Q := fmul avg_volume low.

Ltac by_thresholds :=
  unfold signal, generate_volume_signal;
  fold high_threshold; fold low_threshold;
  destruct (Qle_bool_spec avg_volume 0);
  destruct (Qlt_bool_spec high_threshold current_volume);
  destruct (Qlt_bool_spec current_volume low_threshold);
  try split; intros;
  solve [ reflexivity | discriminate | tauto | lra ].

Lemma volume_unavailable (other : option Q) :
  generate_volume_signal None other high low = "Dati Volume non disponibili" /\
  generate_volume_signal other None high low = "Dati Volume non disponibili".
Proof. destruct other; split; reflexivity. Qed.

Lemma volume_degenerate : avg_volume <= 0 -> signal = "STABILE".
Proof. by_thresholds. Qed.

Lemma volume_high :
  0 < avg_volume ->
  (signal = "RIALZISTA" <-> high_threshold < current_volume).
Proof. by_thresholds. Qed.

Lemma volume_low :
  0 < avg_volume ->
  (signal = "RIBASSISTA" <->
   ~ high_threshold < current_volume /\ current_volume < low_threshold).
Proof. by_thresholds. Qed.

Lemma volume_stable :
  0 < avg_volume ->
  (signal = "STABILE" <->
   ~ high_threshold < current_volume /\ ~ current_volume < low_threshold).
Proof. by_thresholds. Qed.

(** When the computed thresholds are in order the low label is decided by
    the low threshold alone. *)
Lemma volume_low_ordered :
  0 < avg_volume -> low_threshold <= high_threshold ->
  (signal = "RIBASSISTA" <-> current_volume < low_threshold).
Proof.
  intros Ha Hlh. rewrite (volume_low Ha). split; [tauto |].
  intros Hc. split; [| exact Hc]. lra.
Qed.

End VolumeSignal.

(** C6, as the code has it.  A missing input gives the unavailable label; an
    average that is not positive gives "STABILE"; otherwise, with the two
    thresholds [avg * high] and [avg * low] as the code computes them (each
    product rounded to binary64), the signal is "RIALZISTA" exactly when the
    current volume exceeds the high threshold, "RIBASSISTA" exactly when
    that fails and the current volume is below the low threshold, and
    "STABILE" exactly when both fail.  The four examples of the specification
    evaluate to high, stable, low and stable. *)
Theorem generate_volume_signal_cases (current_volume avg_volume high low : Q) :
  let signal :=
    generate_volume_signal (Some current_volume) (Some avg_volume) high low in
  let high_threshold := fmul avg_volume high in
  let low_threshold := fmul avg_volume low in
  (forall other,
      generate_volume_signal None other high low = "Dati Volume non disponibili" /\
      generate_volume_signal other None high low = "Dati Volume non disponibili") /\
  (avg_volume <= 0 -> signal = "STABILE") /\
  (0 < avg_volume ->
     (signal = "RIALZISTA" <-> high_threshold < current_volume) /\
     (signal = "RIBASSISTA" <->
        ~ high_threshold < current_volume /\ current_volume < low_threshold) /\
     (signal = "STABILE" <->
        ~ high_threshold < current_volume /\
        ~ current_volume < low_threshold)) /\
  (let h := default_high_threshold_factor in
   let l := default_low_threshold_factor in
   generate_volume_signal (Some 151) (Some 100) h l = "RIALZISTA" /\
   generate_volume_signal (Some 70) (Some 100) h l = "STABILE" /\
   generate_volume_signal (Some (round 69.9)) (Some 100) h l = "RIBASSISTA" /\
   generate_volume_signal (Some 50) (Some 0) h l = "STABILE").
Proof.
  intros signal high_threshold low_threshold.
  split; [intros other; apply volume_unavailable |].
  split; [apply volume_degenerate |].
  split.
  - intros Ha.
    split; [now apply volume_high |].
    split; [now apply volume_low | now apply volume_stable].
  - repeat split; vm_compute; reflexivity.
Qed.

Lemma generate_volume_signal_cases_witness :
  0 < 100 /\
  (generate_volume_signal (Some 40) (Some 100) 1.5 (round 0.7) = "RIBASSISTA" <->
   ~ fmul 100 1.5 < 40 /\ 40 < fmul 100 (round 0.7)) /\
  generate_volume_signal (Some 40) (Some 100) 1.5 (round 0.7) = "RIBASSISTA".
Proof.
  assert (Ha : 0 < 100) by reflexivity.
  split; [exact Ha |].
  destruct (generate_volume_signal_cases 40 100 1.5 (round 0.7))
    as (_ & _ & H & _).
  destruct (H Ha) as (_ & Hlow & _).
  split; [exact Hlow |].
  apply Hlow. split; vm_compute; [intros Hc; discriminate Hc | reflexivity].
Defined.

(** Where the rounding of the product decides: [45 * 1.4] is computed as
    62.99999999999999, below 63, and [3 * 0.7] as 2.0999999999999996. *)
Example volume_rounding_examples :
  generate_volume_signal (Some 63) (Some 45) (round 1.4) (round 0.7)
  = "RIALZISTA" /\
  generate_volume_signal (Some (round 2.0999999999999996)) (Some 3) 1.5 (round 0.7)
  = "STABILE".
Proof. split; vm_compute; reflexivity. Qed.

(** The same examples on the primitive floats: there too [100 * 0.7] is 70
    and [100 * 1.5] is 150; and the two classifiers on inputs where the
    rounding of a product or a quotient decides the label. *)
Module Binary64_examples.

Import PrimFloat.

Set Warnings "-inexact-float".

Example volume_examples_binary64 :
  Binary64.generate_volume_signal (Some 151%float) (Some 100%float) 1.5 0.7
  = "RIALZISTA" /\
  Binary64.generate_volume_signal (Some 70%float) (Some 100%float) 1.5 0.7
  = "STABILE" /\
  Binary64.generate_volume_signal (Some 69.9%float) (Some 100%float) 1.5 0.7
  = "RIBASSISTA" /\
  Binary64.generate_volume_signal (Some 50%float) (Some 0%float) 1.5 0.7
  = "STABILE".
Proof. repeat split; reflexivity. Qed.

Example crossover_examples_binary64 :
  Binary64.generate_crossover_signal (Some 105%float) (Some 100%float) 0.5
  = "Rialzista" /\
  Binary64.generate_crossover_signal (Some 100.1%float) (Some 100%float) 0.5
  = "Hold" /\
  Binary64.generate_crossover_signal (Some 100%float) (Some 100%float) 0
  = "Hold" /\
  Binary64.generate_crossover_signal (Some 107%float) (Some 100%float) 7
  = "Rialzista" /\
  Binary64.generate_crossover_signal (Some 4%float) (Some 3%float)
    33.33333333333333
  = "Hold".
Proof. repeat split; reflexivity. Qed.

Example rounding_examples_binary64 :
  Binary64.generate_volume_signal (Some 63%float) (Some 45%float) 1.4 0.7
  = "RIALZISTA" /\
  Binary64.generate_volume_signal (Some 2.0999999999999996%float) (Some 3%float)
    1.5 0.7
  = "STABILE".
Proof. repeat split; reflexivity. Qed.

Set Warnings "+inexact-float".

End Binary64_examples.

(** C6 as stated fails where the two thresholds overlap: with [high = 0.5]
    and [low = 2] a volume equal to the average is below the low threshold,
    yet the first test wins and the signal is the high one. *)
Lemma generate_volume_signal_overlap_counterexample :
  generate_volume_signal (Some 100) (Some 100) 0.5 2 = "RIALZISTA" /\
  100 < 100 * 2 /\
  ~ (forall current_volume avg_volume high low,
        0 < avg_volume ->
        (generate_volume_signal (Some current_volume) (Some avg_volume) high low
         = "RIBASSISTA" <-> current_volume < avg_volume * low)).
Proof.
  split; [reflexivity |].
  split; [reflexivity |].
  intros H.
  destruct (H 100 100 0.5 2) as [_ Hlow]; [reflexivity |].
  discriminate Hlow. reflexivity.
Qed.

(** ** Sums, means and slices *)

(** The open price is the last term of a sum that includes it. *)
Lemma sum_snoc (l : list Q) (x : Q) : Py.sum (l ++ [x]) = fadd (Py.sum l) x.
Proof. unfold Py.sum. now rewrite fold_left_app. Qed.

Lemma of_int_positive (n : Z) : (1 <= n)%Z -> 0 < of_int n.
Proof.
  intros Hn. apply round_positive.
  unfold least_positive, Qle, inject_Z. cbn [Qnum Qden]. nia.
Qed.

Lemma len_nonempty {A : Type} (l : list A) :
  l <> [] -> Qeq_bool (of_int (len l)) 0 = false.
Proof.
  intros Hl. destruct (Qeq_bool_spec (of_int (len l)) 0) as [E |]; [| reflexivity].
  exfalso. assert (H : 0 < of_int (len l)).
  { apply of_int_positive. destruct l as [| x l]; [now elim Hl |].
    unfold len. simpl List.length. lia. }
  rewrite E in H. discriminate H.
Qed.

Lemma mean_nonempty (l : list Q) : l <> [] -> mean l = Ok (float_mean l).
Proof.
  intros Hl. unfold mean, div. now rewrite len_nonempty.
Qed.

Lemma slice_from_negative {A : Type} (n : Z) (l : list A) :
  (0 < n)%Z -> slice_from (- n) l = lastn (Z.to_nat n) l.
Proof.
  intros Hn. unfold slice_from, lastn, len.
  destruct (Z.ltb_spec (- n) 0) as [_ | H]; [| lia].
  f_equal. lia.
Qed.

Lemma slice_to_minus_one {A : Type} (l : list A) :
  slice_to (-1) l = removelast l.
Proof.
  unfold slice_to, len. simpl.
  replace (Z.to_nat (Z.of_nat (List.length l) + -1)) with (List.length l - 1)%nat
    by lia.
  induction l as [| x l IH]; [reflexivity |].
  destruct l as [| y l]; [reflexivity |].
  change (removelast (x :: y :: l)) with (x :: removelast (y :: l)).
  rewrite <- IH. simpl. now rewrite Nat.sub_0_r.
Qed.

Lemma lastn_length {A : Type} (n : nat) (l : list A) :
  (n <= List.length l)%nat -> List.length (lastn n l) = n.
Proof. intros H. unfold lastn. rewrite length_skipn. lia. Qed.

Lemma lastn_all {A : Type} (n : nat) (l : list A) :
  (List.length l <= n)%nat -> lastn n l = l.
Proof.
  intros H. unfold lastn.
  replace (List.length l - n)%nat with 0%nat by lia. reflexivity.
Qed.

(** ** Reading a column of a window *)

Lemma read_numeric (i : nat) (k : kline) (x : Q) :
  numeric_at i k x -> rbind (item k i) float = Ok x.
Proof. unfold numeric_at, item. intros ->. reflexivity. Qed.

Lemma comprehension_numeric (i : nat) (klines : list kline) (xs : list Q) :
  Forall2 (numeric_at i) klines xs ->
  comprehension (fun kline => rbind (item kline i) float) klines = Ok xs.
Proof.
  induction 1 as [| k x klines xs Hk _ IH]; simpl.
  - reflexivity.
  - rewrite (read_numeric _ _ _ Hk). simpl. rewrite IH. reflexivity.
Qed.


(** ** get_moving_averages *)

Section MovingAverages.

Variables (client : Client) (symbol : string) (short_period long_period : Z).

Let run : Py (option Q * option Q) :=
  get_moving_averages client symbol short_period long_period.

Lemma periods_rejected :
  (short_period <= 0 \/ long_period <= 0 \/ short_period > long_period)%Z ->
  (short_period <=? 0)%Z || (long_period <=? 0)%Z || (long_period <? short_period)%Z
  = true.
Proof.
  intros H. rewrite !orb_true_iff, !Z.leb_le, Z.ltb_lt. lia.
Qed.

Lemma periods_accepted :
  (0 < short_period <= long_period)%Z ->
  (short_period <=? 0)%Z || (long_period <=? 0)%Z || (long_period <? short_period)%Z
  = false.
Proof.
  intros H. rewrite !orb_false_iff, !Z.leb_gt, Z.ltb_ge. lia.
Qed.

Lemma moving_averages_invalid :
  (short_period <= 0 \/ long_period <= 0 \/ short_period > long_period)%Z ->
  run = ([Print "Errore: i periodi delle medie mobili devono essere positivi e il periodo breve <= periodo lungo."],
         Ok (None, None)).
Proof.
  intros H. unfold run, get_moving_averages.
  rewrite (periods_rejected H). reflexivity.
Qed.

Lemma moving_averages_fetch_raises (e : exn) :
  (0 < short_period <= long_period)%Z ->
  get_klines client (upper symbol) "1d" long_period = Raise e ->
  value run = Ok (None, None).
Proof.
  intros Hp Hf. unfold run, get_moving_averages.
  rewrite (periods_accepted Hp).
  unfold call_get_klines, bind, try. rewrite Hf. reflexivity.
Qed.

Lemma moving_averages_insufficient (klines : list kline) :
  (0 < short_period <= long_period)%Z ->
  get_klines client (upper symbol) "1d" long_period = Ok klines ->
  (len klines < long_period)%Z ->
  value run = Ok (None, None).
Proof.
  intros Hp Hf Hlen. unfold run, get_moving_averages.
  rewrite (periods_accepted Hp).
  unfold call_get_klines, bind, try. rewrite Hf.
  assert (E : negb (truthy klines) || (len klines <? long_period)%Z = true).
  { apply orb_true_iff. right. now apply Z.ltb_lt. }
  rewrite E. reflexivity.
Qed.

Lemma enough_klines (klines : list kline) :
  (0 < long_period)%Z -> (long_period <= len klines)%Z ->
  negb (truthy klines) || (len klines <? long_period)%Z = false.
Proof.
  intros Hp Hlen. apply orb_false_iff. split.
  - destruct klines; [unfold len in Hlen; simpl in Hlen; lia | reflexivity].
  - now apply Z.ltb_ge.
Qed.


Lemma moving_averages_computed (klines : list kline) (prices : list Q) :
  (0 < short_period <= long_period)%Z ->
  get_klines client (upper symbol) "1d" long_period = Ok klines ->
  (long_period <= len klines)%Z ->
  Forall2 close_of klines prices ->
  let window := lastn (Z.to_nat short_period) prices in
  run = ([Request "get_klines" (upper symbol) (Some long_period)],
         Ok (Some (float_mean window), Some (float_mean prices))).
Proof.
  intros Hp Hf Hlen Hc window. unfold run, get_moving_averages.
  rewrite (periods_accepted Hp).
  unfold call_get_klines, bind, try. rewrite Hf.
  rewrite enough_klines by lia.
  unfold lift. rewrite (comprehension_numeric 4 klines prices Hc).
  assert (Hsame : List.length prices = List.length klines).
  { symmetry. apply (Forall2_length Hc). }
  assert (Hne : prices <> []).
  { intros ->. unfold len in Hlen. simpl in Hsame. rewrite <- Hsame in Hlen.
    simpl in Hlen. lia. }
  rewrite (mean_nonempty prices Hne).
  rewrite slice_from_negative by lia. fold window.
  assert (Hw : window <> []).
  { intros E. assert (L : List.length window = Z.to_nat short_period).
    { apply lastn_length. unfold len in Hlen. lia. }
    rewrite E in L. simpl in L. lia. }
  rewrite (mean_nonempty window Hw). reflexivity.
Qed.

End MovingAverages.

Lemma lastn_snoc {A : Type} (n : nat) (l : list A) (x : A) :
  (0 < n)%nat -> lastn n (l ++ [x]) = lastn (n - 1) l ++ [x].
Proof.
  intros Hn. unfold lastn. rewrite length_app, skipn_app. simpl.
  replace (List.length l + 1 - n)%nat with (List.length l - (n - 1))%nat by lia.
  replace (List.length l - (n - 1) - List.length l)%nat with 0%nat by lia.
  reflexivity.
Qed.

Lemma Forall2_skipn {A B : Type} (R : A -> B -> Prop) (n : nat) :
  forall (l : list A) (l' : list B),
    Forall2 R l l' -> Forall2 R (skipn n l) (skipn n l').
Proof.
  induction n as [| n IH]; intros l l' H; [exact H |].
  destruct H as [| x y l l' _ H]; simpl; [constructor | now apply IH].
Qed.

Lemma Forall2_lastn {A B : Type} (R : A -> B -> Prop) (n : nat)
  (l : list A) (l' : list B) :
  Forall2 R l l' -> Forall2 R (lastn n l) (lastn n l').
Proof.
  intros H. unfold lastn. rewrite <- (Forall2_length H).
  now apply Forall2_skipn.
Qed.

Lemma Forall2_snoc {A B : Type} (R : A -> B -> Prop) (l : list A) (l' : list B)
  (x : A) (y : B) :
  Forall2 R l l' -> R x y -> Forall2 R (l ++ [x]) (l' ++ [y]).
Proof.
  intros H Hxy. apply Forall2_app; [exact H |]. constructor; [exact Hxy | constructor].
Qed.

(** What the concrete exchange answers. *)
Lemma exchange_get_klines (listed : string) (history : list kline) (price : cell)
  (limit : Z) :
  (0 < limit)%Z ->
  get_klines (exchange listed history price) listed "1d" limit
  = Ok (lastn (Z.to_nat limit) history).
Proof.
  intros Hl. simpl. rewrite String.eqb_refl.
  destruct (Z.ltb_spec 0 limit) as [_ | H]; [| lia].
  simpl. now rewrite slice_from_negative.
Qed.

(** C7.  Periods that are not [0 < short <= long] give [(None, None)] and
    no request reaches the exchange; so does an answer of fewer than
    [long_period] candles.  In neither case is a number returned. *)
Theorem get_moving_averages_unavailable (client : Client) (symbol : string)
  (short_period long_period : Z) :
  let run := get_moving_averages client symbol short_period long_period in
  ((short_period <= 0 \/ long_period <= 0 \/ short_period > long_period)%Z ->
     value run = Ok (None, None) /\ requests (output run) = []) /\
  (forall klines,
      get_klines client (upper symbol) "1d" long_period = Ok klines ->
      (len klines < long_period)%Z ->
      value run = Ok (None, None)).
Proof.
  intros run. split.
  - intros H. unfold run. rewrite (moving_averages_invalid _ _ _ _ H).
    split; reflexivity.
  - intros klines Hf Hlen.
    destruct (Z_lt_le_dec 0 short_period) as [Hs |].
    + destruct (Z_le_gt_dec short_period long_period) as [Hl |].
      * apply (moving_averages_insufficient _ _ _ _ klines); [lia | exact Hf | exact Hlen].
      * unfold run. rewrite moving_averages_invalid by lia. reflexivity.
    + unfold run. rewrite moving_averages_invalid by lia. reflexivity.
Qed.

(** C2, as the code has it.  On an answer of exactly [long_period] candles
    with numeric closes, the long average is the mean of all of them and the
    short average the mean of the last [short_period] of them, each computed
    as the rounded sum over the count: the close of the last, still open,
    candle is the last term of both sums. *)
Theorem get_moving_averages_includes_open_candle (client : Client)
  (symbol : string) (short_period long_period : Z)
  (closed : list kline) (open_candle : kline)
  (closed_prices : list Q) (open_price : Q) :
  (0 < short_period <= long_period)%Z ->
  get_klines client (upper symbol) "1d" long_period = Ok (closed ++ [open_candle]) ->
  len (closed ++ [open_candle]) = long_period ->
  Forall2 close_of closed closed_prices ->
  close_of open_candle open_price ->
  exists short_sma long_sma,
    value (get_moving_averages client symbol short_period long_period)
    = Ok (Some short_sma, Some long_sma) /\
    long_sma = float_mean (closed_prices ++ [open_price]) /\
    long_sma
    = truediv (fadd (Py.sum closed_prices) open_price) (of_int long_period) /\
    short_sma
    = float_mean (lastn (Z.to_nat short_period) (closed_prices ++ [open_price])) /\
    short_sma
    = truediv
        (fadd (Py.sum (lastn (Z.to_nat short_period - 1) closed_prices))
           open_price)
        (of_int short_period).
Proof.
  intros Hp Hf Hlen Hc Ho.
  pose proof (Forall2_snoc _ _ _ _ _ Hc Ho) as Hall.
  set (prices := closed_prices ++ [open_price]) in *.
  assert (Hpl : len prices = long_period).
  { rewrite <- Hlen. unfold len. now rewrite (Forall2_length Hall). }
  assert (Hwl : len (lastn (Z.to_nat short_period) prices) = short_period).
  { unfold len. rewrite lastn_length; [lia |]. unfold len in Hpl. lia. }
  eexists. eexists. split.
  - rewrite (moving_averages_computed client symbol short_period long_period
               _ prices Hp Hf); [reflexivity | lia | exact Hall].
  - split; [| split; [| split]].
    + reflexivity.
    + unfold float_mean. rewrite Hpl. unfold prices. now rewrite sum_snoc.
    + reflexivity.
    + unfold float_mean. rewrite Hwl. unfold prices.
      rewrite lastn_snoc by lia. now rewrite sum_snoc.
Qed.

Lemma get_moving_averages_unavailable_witness :
  let client := exchange "ETHUSDT" three_days (Numeric 6) in
  ((3 <= 0 \/ 2 <= 0 \/ 3 > 2)%Z /\
   value (get_moving_averages client "ethusdt" 3 2) = Ok (None, None) /\
   requests (output (get_moving_averages client "ethusdt" 3 2)) = []) /\
  (get_klines client (upper "ethusdt") "1d" 4 = Ok three_days /\
   (len three_days < 4)%Z /\
   value (get_moving_averages client "ethusdt" 2 4) = Ok (None, None)).
Proof.
  intros client.
  assert (Hbad : (3 <= 0 \/ 2 <= 0 \/ 3 > 2)%Z) by (right; right; reflexivity).
  assert (Hfetch : get_klines client (upper "ethusdt") "1d" 4 = Ok three_days)
    by reflexivity.
  assert (Hfew : (len three_days < 4)%Z) by reflexivity.
  split.
  - split; [exact Hbad |].
    exact (proj1 (get_moving_averages_unavailable client "ethusdt" 3 2) Hbad).
  - split; [exact Hfetch |]. split; [exact Hfew |].
    exact (proj2 (get_moving_averages_unavailable client "ethusdt" 2 4)
             three_days Hfetch Hfew).
Defined.

Lemma get_moving_averages_includes_open_candle_witness :
  let client := exchange "ETHUSDT" three_days (Numeric 6) in
  exists short_sma long_sma,
    value (get_moving_averages client "ethusdt" 1 3)
    = Ok (Some short_sma, Some long_sma) /\
    long_sma = float_mean ([2; 4] ++ [6]) /\
    long_sma = truediv (fadd (Py.sum [2; 4]) 6) (of_int 3) /\
    short_sma = float_mean (lastn (Z.to_nat 1) ([2; 4] ++ [6])) /\
    short_sma
    = truediv (fadd (Py.sum (lastn (Z.to_nat 1 - 1) [2; 4])) 6) (of_int 1).
Proof.
  intros client.
  apply (get_moving_averages_includes_open_candle client "ethusdt" 1 3
           [candle 5 1 2 10; candle 6 2 4 20] (candle 7 3 6 30) [2; 4] 6).
  - split; [reflexivity | intros H; discriminate H].
  - reflexivity.
  - reflexivity.
  - repeat constructor.
  - reflexivity.
Defined.

(** C2 as stated fails: were the open candle left out of the means, two
    answers that differ only in it would give the same averages.  With one
    closed candle of close 2, an open candle of close 4 gives (4, 3) and one
    of close 6 gives (6, 4). *)
Lemma get_moving_averages_open_candle_counterexample :
  let run open_candle :=
    value (get_moving_averages
             (exchange "ETHUSDT" ([candle 5 1 2 10] ++ [open_candle]) (Numeric 6))
             "ETHUSDT" 1 2) in
  run (candle 6 2 4 20) = Ok (Some 4, Some 3) /\
  run (candle 7 3 6 30) = Ok (Some 6, Some 4) /\
  ~ (forall listed price short_period long_period closed open1 open2,
        (0 < short_period <= long_period)%Z ->
        len (closed ++ [open1]) = long_period ->
        len (closed ++ [open2]) = long_period ->
        value (get_moving_averages (exchange listed (closed ++ [open1]) price)
                 listed short_period long_period)
        = value (get_moving_averages (exchange listed (closed ++ [open2]) price)
                   listed short_period long_period)).
Proof.
  intros run.
  split; [reflexivity |]. split; [reflexivity |].
  intros H.
  specialize (H "ETHUSDT" (Numeric 6) 1%Z 2%Z [candle 5 1 2 10]
                (candle 6 2 4 20) (candle 7 3 6 30)).
  assert (E : Ok (Some 4, Some 3) = Ok (Some 6, Some 4) :> result (option Q * option Q)).
  { apply H; [lia | reflexivity | reflexivity]. }
  discriminate E.
Qed.

(** C10, as the code has it.  On an answer of exactly [period] candles with
    numeric closes, which is what the exchange returns when asked for
    [period] candles of a history at least that long, equal periods give the
    same number for both averages, the mean of all the closes of the answer,
    and the crossover signal on that pair is "Hold" for every threshold
    [t >= 0] when the mean is not 0. *)
Theorem equal_periods_give_hold (client : Client) (symbol : string)
  (period : Z) (klines : list kline) (prices : list Q) (t : Q) :
  (0 < period)%Z ->
  get_klines client (upper symbol) "1d" period = Ok klines ->
  len klines = period ->
  Forall2 close_of klines prices ->
  exists m,
    value (get_moving_averages client symbol period period)
    = Ok (Some m, Some m) /\
    m = float_mean prices /\
    (0 <= t -> ~ m == 0 ->
     generate_crossover_signal (Some m) (Some m) t = "Hold").
Proof.
  intros Hp Hf Hlen Hc.
  assert (Hl : List.length prices = Z.to_nat period).
  { rewrite <- (Forall2_length Hc). unfold len in Hlen. lia. }
  exists (float_mean prices). split; [| split].
  - rewrite (moving_averages_computed client symbol period period klines prices);
      [| lia | exact Hf | lia | exact Hc].
    rewrite (lastn_all (Z.to_nat period) prices) by lia. reflexivity.
  - reflexivity.
  - intros Ht Hm. now apply crossover_equal_averages.
Qed.

Lemma equal_periods_give_hold_witness :
  exists m,
    value (get_moving_averages (exchange "ETHUSDT" three_days (Numeric 6))
             "ethusdt" 2 2)
    = Ok (Some m, Some m) /\
    m = float_mean [4; 6] /\
    (0 <= 0.5 -> ~ m == 0 ->
     generate_crossover_signal (Some m) (Some m) 0.5 = "Hold").
Proof.
  apply (equal_periods_give_hold (exchange "ETHUSDT" three_days (Numeric 6))
           "ethusdt" 2 [candle 6 2 4 20; candle 7 3 6 30] [4; 6] 0.5).
  - reflexivity.
  - reflexivity.
  - reflexivity.
  - repeat constructor.
Defined.

(** The same on the concrete exchange, for every history of at least
    [period] candles: its answer has exactly [period] rows. *)
Lemma equal_periods_on_exchange (listed : string) (history : list kline)
  (price : cell) (symbol : string) (period : Z) (prices : list Q) (t : Q) :
  upper symbol = listed ->
  (0 < period)%Z ->
  (period <= len history)%Z ->
  Forall2 close_of history prices ->
  exists m,
    value (get_moving_averages (exchange listed history price) symbol period period)
    = Ok (Some m, Some m) /\
    m = float_mean (lastn (Z.to_nat period) prices) /\
    (0 <= t -> ~ m == 0 ->
     generate_crossover_signal (Some m) (Some m) t = "Hold").
Proof.
  intros Hs Hp Hlen Hc.
  set (klines := lastn (Z.to_nat period) history).
  set (window := lastn (Z.to_nat period) prices).
  assert (Hw : Forall2 close_of klines window) by now apply Forall2_lastn.
  assert (Hk : List.length klines = Z.to_nat period).
  { apply lastn_length. unfold len in Hlen. lia. }
  assert (Hwl : List.length window = Z.to_nat period).
  { rewrite <- Hk. symmetry. apply (Forall2_length Hw). }
  exists (float_mean window). split; [| split].
  - rewrite (moving_averages_computed _ symbol period period klines window).
    + rewrite (lastn_all (Z.to_nat period) window) by lia. reflexivity.
    + lia.
    + rewrite Hs. now apply exchange_get_klines.
    + unfold len. lia.
    + exact Hw.
  - reflexivity.
  - intros Ht Hm. now apply crossover_equal_averages.
Qed.

(** C10 as stated fails on an answer longer than [period]: the code accepts
    it (it only refuses fewer rows), takes the long average over all its rows
    and the short one over the last [period].  Three candles with closes 2,
    4, 6 for a period of 2 give 5 and 4. *)
Lemma equal_periods_long_answer_counterexample :
  get_klines (unlimited three_days (Numeric 6)) (upper "ethusdt") "1d" 2
  = Ok three_days /\
  value (get_moving_averages (unlimited three_days (Numeric 6)) "ethusdt" 2 2)
  = Ok (Some 5, Some 4) /\
  ~ (forall client symbol period klines prices,
        (0 < period)%Z ->
        get_klines client (upper symbol) "1d" period = Ok klines ->
        (period <= len klines)%Z ->
        Forall2 close_of klines prices ->
        exists m,
          value (get_moving_averages client symbol period period)
          = Ok (Some m, Some m)).
Proof.
  split; [reflexivity |].
  assert (Hv : value (get_moving_averages (unlimited three_days (Numeric 6))
                        "ethusdt" 2 2) = Ok (Some 5, Some 4))
    by (vm_compute; reflexivity).
  split; [exact Hv |].
  intros H.
  destruct (H (unlimited three_days (Numeric 6)) "ethusdt" 2%Z three_days
              [2; 4; 6]) as [m Hm].
  - reflexivity.
  - reflexivity.
  - intros E; discriminate E.
  - repeat constructor.
  - rewrite Hv in Hm. injection Hm as H5 H4. rewrite <- H5 in H4.
    discriminate H4.
Qed.

(** ** The breakout scan *)

Lemma scan_kline_well_formed (k : kline) (high low hh : Q) (ll : xfloat) :
  readable k = Some (high, low) ->
  scan_kline (hh, ll) k = ([], Ok (extremes [(high, low)] (hh, ll))).
Proof.
  unfold readable, scan_kline, item. intros H.
  destruct (nth_error k 2) as [[x | |] |]; try discriminate H.
  destruct (nth_error k 3) as [[y | |] |]; try discriminate H.
  injection H as -> ->. reflexivity.
Qed.

Lemma scan_kline_malformed (k : kline) (hh : Q) (ll : xfloat) :
  malformed k = true ->
  scan_kline (hh, ll) k = ([parse_warning], Ok (hh, ll)).
Proof.
  unfold malformed, unparsable, scan_kline, item. intros H.
  destruct (nth_error k 2) as [[x | |] |]; try discriminate H; try reflexivity.
  destruct (nth_error k 3) as [[y | |] |]; try discriminate H; reflexivity.
Qed.

(** A row that is neither: a field that is not text and not a number.  The
    inner handler does not name [TypeError], so the loop is left. *)
Lemma scan_kline_mistyped (k : kline) (hh : Q) (ll : xfloat) :
  well_formed k = false -> malformed k = false ->
  scan_kline (hh, ll) k = ([], Raise TypeError).
Proof.
  unfold well_formed, readable, malformed, unparsable, scan_kline, item.
  intros Hw Hm.
  destruct (nth_error k 2) as [[x | |] |]; try discriminate Hm; try reflexivity.
  destruct (nth_error k 3) as [[y | |] |]; try discriminate Hm;
    try discriminate Hw; reflexivity.
Qed.

Lemma malformed_not_readable (k : kline) :
  malformed k = true -> readable k = None.
Proof.
  unfold malformed, unparsable, readable. intros H.
  destruct (nth_error k 2) as [[x | |] |]; try discriminate H; try reflexivity.
  destruct (nth_error k 3) as [[y | |] |]; try discriminate H; reflexivity.
Qed.

Lemma extremes_cons (row : Q * Q) (rows : list (Q * Q)) (start : Q * xfloat) :
  extremes (row :: rows) start = extremes rows (extremes [row] start).
Proof. reflexivity. Qed.

Lemma for_each_cons {A S : Type} (body : S -> A -> Py S) (x : A) (l : list A)
  (acc : S) :
  for_each body (x :: l) acc = bind (body acc x) (for_each body l).
Proof. reflexivity. Qed.

(** The loop over a window without mistyped rows: one warning per malformed
    row, and the extremes of the well-formed ones. *)
Lemma scan_skips_malformed (klines : list kline) :
  forall start : Q * xfloat,
    Forall (fun k => well_formed k = true \/ malformed k = true) klines ->
    for_each scan_kline klines start
    = (repeat parse_warning (List.length (filter malformed klines)),
       Ok (extremes (readable_rows klines) start)).
Proof.
  induction klines as [| k klines IH]; intros [hh ll] Hall.
  - reflexivity.
  - inversion Hall as [| k' klines' Hk Hrest]; subst.
    rewrite for_each_cons. simpl filter. simpl readable_rows.
    destruct Hk as [Hw | Hm].
    + unfold well_formed in Hw.
      destruct (readable k) as [[high low] |] eqn:Er; [| discriminate Hw].
      rewrite (scan_kline_well_formed k high low hh ll Er).
      assert (Hnm : malformed k = false).
      { destruct (malformed k) eqn:Em; [| reflexivity].
        apply malformed_not_readable in Em. congruence. }
      rewrite Hnm. unfold bind. rewrite (IH _ Hrest).
      rewrite extremes_cons. reflexivity.
    + rewrite (scan_kline_malformed k hh ll Hm), Hm.
      rewrite (malformed_not_readable k Hm).
      unfold bind. rewrite (IH _ Hrest). reflexivity.
Qed.

(** The first mistyped row ends the loop with [TypeError]. *)
Lemma scan_aborts_on_mistyped (klines : list kline) (k : kline) :
  forall start : Q * xfloat,
    In k klines -> well_formed k = false -> malformed k = false ->
    value (for_each scan_kline klines start) = Raise TypeError.
Proof.
  induction klines as [| k0 klines IH]; intros [hh ll] Hin Hw Hm;
    [contradiction |].
  rewrite for_each_cons.
  destruct (well_formed k0) eqn:Ew0.
  - unfold well_formed in Ew0.
    destruct (readable k0) as [[high low] |] eqn:Er; [| discriminate Ew0].
    rewrite (scan_kline_well_formed k0 high low hh ll Er). unfold bind.
    destruct Hin as [-> | Hin].
    + unfold well_formed in Hw. rewrite Er in Hw. discriminate Hw.
    + specialize (IH (extremes [(high, low)] (hh, ll)) Hin Hw Hm).
      destruct (for_each scan_kline klines (extremes [(high, low)] (hh, ll))).
      exact IH.
  - destruct (malformed k0) eqn:Em0.
    + rewrite (scan_kline_malformed k0 hh ll Em0). unfold bind.
      destruct Hin as [-> | Hin]; [congruence |].
      specialize (IH (hh, ll) Hin Hw Hm).
      destruct (for_each scan_kline klines (hh, ll)). exact IH.
    + rewrite (scan_kline_mistyped k0 hh ll Ew0 Em0). reflexivity.
Qed.

(** The running maximum is the start or one of the highs, and bounds
    both. *)
Lemma highest_bounds (highs : list Q) :
  forall start,
    start <= highest highs start /\
    (forall high, In high highs -> high <= highest highs start) /\
    (highest highs start = start \/ In (highest highs start) highs).
Proof.
  unfold highest.
  induction highs as [| h highs IH]; intros start; simpl.
  - split; [apply Qle_refl |]. split; [contradiction | now left].
  - destruct (IH (if Qlt_bool start h then h else start)) as (Hs & Hb & Hm).
    destruct (Qlt_bool_spec start h) as [Hlt | Hge].
    + split; [apply Qle_trans with h; [now apply Qlt_le_weak | exact Hs] |].
      split.
      * intros high [<- | Hin]; [exact Hs | now apply Hb].
      * right. destruct Hm as [-> | Hm]; [now left | now right].
    + split; [exact Hs |]. split.
      * intros high [<- | Hin]; [| now apply Hb].
        apply Qle_trans with start; [| exact Hs]. now apply Qnot_lt_le.
      * destruct Hm as [Hm | Hm]; [now left | right; now right].
Qed.

(** From 0.0 and on highs that are not negative, the running maximum is the
    largest high. *)
Lemma highest_is_maximum (highs : list Q) :
  highs <> [] -> (forall high, In high highs -> 0 <= high) ->
  exists high, In high highs /\ high == highest highs 0.
Proof.
  intros Hne Hpos.
  destruct (highest_bounds highs 0) as (_ & Hub & [E | Hin]).
  - destruct highs as [| h highs]; [contradiction |].
    exists h. split; [now left |].
    apply Qle_antisym.
    + apply Hub. now left.
    + rewrite E. apply Hpos. now left.
  - exists (highest highs 0). split; [exact Hin | reflexivity].
Qed.

(** The running minimum from [float('inf')] is infinite on no lows, else one
    of the lows, and bounds them from below. *)
Lemma lowest_bounds (lows : list Q) :
  forall start,
    (forall low, In low lows -> AtMost (lowest lows start) low) /\
    (forall a, AtMost start a -> AtMost (lowest lows start) a) /\
    (lowest lows start = start \/
     exists low, In low lows /\ lowest lows start = Finite low).
Proof.
  unfold lowest.
  induction lows as [| l lows IH]; intros start; simpl.
  - split; [contradiction |]. split; [trivial | now left].
  - destruct (IH (if below l start then Finite l else start)) as (Hb & Hs & Hm).
    split; [| split].
    + intros low [<- | Hin]; [| now apply Hb].
      apply Hs. destruct (below_spec l start) as [_ | Hn]; simpl.
      * apply Qle_refl.
      * destruct start as [y |]; simpl in *; [now apply Qnot_lt_le | now apply Hn].
    + intros a Ha. apply Hs.
      destruct (below_spec l start) as [Hlt | _]; [| exact Ha].
      destruct start as [y |]; simpl in *; [| contradiction].
      apply Qle_trans with y; [now apply Qlt_le_weak | exact Ha].
    + destruct (below_spec l start) as [_ | _].
      * right. destruct Hm as [-> | (low & Hin & ->)].
        -- exists l. split; [now left | reflexivity].
        -- exists low. split; [now right | reflexivity].
      * destruct Hm as [Hm | (low & Hin & ->)]; [now left |].
        right. exists low. split; [now right | reflexivity].
Qed.

(** ** get_binance_price_pb *)

(** The price function never raises: every failure is turned into [None]. *)
Lemma get_binance_price_pb_total (client : Client) (symbol : string) :
  exists (t : trace) (price : option Q),
    get_binance_price_pb client symbol = (t, Ok price).
Proof.
  unfold get_binance_price_pb, call_get_symbol_ticker, bind, try.
  destruct (get_symbol_ticker client (upper symbol)) as [ticker | e].
  - destruct (truthy ticker && contains ticker "price").
    + unfold lift. destruct (rbind (getitem ticker "price") float) as [p | e];
        simpl; eauto.
    + simpl. eauto.
  - simpl. eauto.
Qed.

Lemma get_binance_price_pb_listed (listed : string) (history : list kline)
  (price : Q) (symbol : string) :
  upper symbol = listed ->
  get_binance_price_pb (exchange listed history (Numeric price)) symbol
  = ([Request "get_symbol_ticker" listed None], Ok (Some price)).
Proof.
  intros Hs. unfold get_binance_price_pb, call_get_symbol_ticker. simpl.
  rewrite Hs, String.eqb_refl. reflexivity.
Qed.

(** ** generate_breakout_signal *)

Section Breakout.

Variables (client : Client) (symbol : string) (lookback_period : Z)
          (klines : list kline).

Hypothesis positive : (0 < lookback_period)%Z.
Hypothesis fetched :
  get_klines client (upper symbol) "1d" lookback_period = Ok klines.
Hypothesis enough : (lookback_period <= len klines)%Z.

Let run : Py string := generate_breakout_signal client symbol lookback_period.

Lemma breakout_enters_scan :
  run =
  try
    (let (t, r) :=
       (extremes <- for_each scan_kline klines (0, Infinity) ;;
        let '(highest_high, lowest_low) := extremes in
        current_price <- get_binance_price_pb client symbol ;;
        match current_price with
        | None => ret "Errore nel recupero prezzo attuale per breakout"
        | Some current_price =>
            ret (breakout_label current_price highest_high lowest_low)
        end)%py in
     ([Request "get_klines" (upper symbol) (Some lookback_period)] ++ t, r))
    (except_Exception
       (print "Errore nel calcolo del segnale di breakout per simbolo {symbol}: {e}" ;;
        ret "Errore interno nel calcolo breakout.")%py).
Proof.
  unfold run, generate_breakout_signal.
  destruct (Z.leb_spec lookback_period 0) as [H | _]; [lia |].
  unfold call_get_klines. rewrite fetched.
  unfold bind at 1. rewrite (enough_klines lookback_period klines positive enough).
  reflexivity.
Qed.

(** The run on a window without mistyped rows. *)
Lemma breakout_run (t : trace) (price : option Q) :
  Forall (fun k => well_formed k = true \/ malformed k = true) klines ->
  get_binance_price_pb client symbol = (t, Ok price) ->
  run =
  (Request "get_klines" (upper symbol) (Some lookback_period)
     :: repeat parse_warning (List.length (filter malformed klines)) ++ t,
   Ok match price with
      | None => "Errore nel recupero prezzo attuale per breakout"
      | Some current_price =>
          breakout_label current_price
            (highest (map fst (readable_rows klines)) 0)
            (lowest (map snd (readable_rows klines)) Infinity)
      end).
Proof.
  intros Hrows Hprice. rewrite breakout_enters_scan.
  rewrite (scan_skips_malformed klines (0, Infinity) Hrows).
  unfold extremes, bind. rewrite Hprice.
  destruct price as [p |]; simpl; rewrite app_nil_r; reflexivity.
Qed.

(** The run on a window with a mistyped row. *)
Lemma breakout_run_mistyped (k : kline) :
  In k klines -> well_formed k = false -> malformed k = false ->
  value run = Ok "Errore interno nel calcolo breakout.".
Proof.
  intros Hin Hw Hm. rewrite breakout_enters_scan.
  pose proof (scan_aborts_on_mistyped klines k (0, Infinity) Hin Hw Hm) as H.
  unfold bind. destruct (for_each scan_kline klines (0, Infinity)) as [t r].
  simpl in H. subst r. reflexivity.
Qed.

End Breakout.

Lemma readable_rows_malformed (klines : list kline) :
  Forall (fun k => malformed k = true) klines ->
  readable_rows klines = [] /\ filter malformed klines = klines.
Proof.
  induction 1 as [| k klines Hk _ [IHr IHf]]; [split; reflexivity |].
  simpl. rewrite (malformed_not_readable k Hk), Hk, IHf. now split.
Qed.


Lemma rows_partition (klines : list kline) :
  Forall (fun k => well_formed k = true \/ malformed k = true) klines ->
  (List.length (readable_rows klines) + List.length (filter malformed klines)
   = List.length klines)%nat.
Proof.
  induction 1 as [| k klines Hk _ IH]; [reflexivity |].
  simpl. destruct Hk as [Hw | Hm].
  - unfold well_formed in Hw.
    destruct (readable k) as [row |] eqn:E; [| discriminate Hw].
    destruct (malformed k) eqn:Em.
    + apply malformed_not_readable in Em. congruence.
    + simpl. lia.
  - rewrite (malformed_not_readable k Hm), Hm. simpl. lia.
Qed.

Lemma price_available (client : Client) (symbol : string) (p : option Q) :
  value (get_binance_price_pb client symbol) = Ok p ->
  get_binance_price_pb client symbol
  = (output (get_binance_price_pb client symbol), Ok p).
Proof.
  destruct (get_binance_price_pb client symbol) as [t r]. simpl.
  now intros ->.
Qed.

(** C3, as the code has it.  On a window whose rows are well formed or
    malformed (the high or the low field missing, or text that is not a
    number) the scan skips exactly the malformed rows: it ends with the
    largest of 0.0 and the highs, and the smallest of infinity and the lows,
    of the well-formed rows, and prints one warning per skipped row.  The
    value handed to the caller is the label alone: neither the extremes nor
    the number of skipped rows is part of it. *)
Theorem breakout_scan_skips_malformed_rows (client : Client) (symbol : string)
  (lookback_period : Z) (klines : list kline) (current_price : Q) :
  (0 < lookback_period)%Z ->
  get_klines client (upper symbol) "1d" lookback_period = Ok klines ->
  (lookback_period <= len klines)%Z ->
  Forall (fun k => well_formed k = true \/ malformed k = true) klines ->
  value (get_binance_price_pb client symbol) = Ok (Some current_price) ->
  let rows := readable_rows klines in
  let skipped := List.length (filter malformed klines) in
  let run := generate_breakout_signal client symbol lookback_period in
  exists (highest_high : Q) (lowest_low : xfloat),
    for_each scan_kline klines (0, Infinity)
    = (repeat parse_warning skipped, Ok (highest_high, lowest_low)) /\
    (List.length rows + skipped = List.length klines)%nat /\
    (0 <= highest_high /\
     (forall row, In row rows -> fst row <= highest_high) /\
     (highest_high = 0 \/ In highest_high (map fst rows))) /\
    ((forall row, In row rows -> AtMost lowest_low (snd row)) /\
     (lowest_low = Infinity \/
      exists low, In low (map snd rows) /\ lowest_low = Finite low)) /\
    value run = Ok (breakout_label current_price highest_high lowest_low) /\
    output run
    = Request "get_klines" (upper symbol) (Some lookback_period)
        :: repeat parse_warning skipped
        ++ output (get_binance_price_pb client symbol).
Proof.
  intros Hpos Hf Hlen Hrows Hprice rows skipped run.
  exists (highest (map fst rows) 0), (lowest (map snd rows) Infinity).
  split; [apply (scan_skips_malformed klines (0, Infinity) Hrows) |].
  split; [now apply rows_partition |].
  destruct (highest_bounds (map fst rows) 0) as (H0 & Hub & Hmem).
  destruct (lowest_bounds (map snd rows) Infinity) as (Hlb & _ & Hlmem).
  split; [| split].
  - split; [exact H0 |]. split; [| exact Hmem].
    intros row Hin. apply Hub. now apply in_map.
  - split; [| exact Hlmem].
    intros row Hin. apply Hlb. now apply in_map.
  - unfold run.
    rewrite (breakout_run client symbol lookback_period klines Hpos Hf Hlen
               _ _ Hrows (price_available _ _ _ Hprice)).
    split; reflexivity.
Qed.

(** C9, as the code has it.  When every row of the window is malformed, its
    high or low missing or text that is not a number, the scan leaves the
    extremes at their starting values, 0.0 and infinity, and any available
    price above 0 gets the bullish breakout label. *)
Theorem breakout_on_unparsable_window (client : Client) (symbol : string)
  (lookback_period : Z) (klines : list kline) (current_price : Q) :
  (0 < lookback_period)%Z ->
  get_klines client (upper symbol) "1d" lookback_period = Ok klines ->
  (lookback_period <= len klines)%Z ->
  Forall (fun k => malformed k = true) klines ->
  value (get_binance_price_pb client symbol) = Ok (Some current_price) ->
  0 < current_price ->
  value (for_each scan_kline klines (0, Infinity)) = Ok (0, Infinity) /\
  value (generate_breakout_signal client symbol lookback_period)
  = Ok "Breakout Rialzista".
Proof.
  intros Hpos Hf Hlen Hbad Hprice Hp.
  assert (Hrows : Forall (fun k => well_formed k = true \/ malformed k = true) klines).
  { apply Forall_impl with (2 := Hbad). intros k Hk. now right. }
  destruct (readable_rows_malformed klines Hbad) as [Hr _].
  split.
  - rewrite (scan_skips_malformed klines (0, Infinity) Hrows), Hr. reflexivity.
  - rewrite (breakout_run client symbol lookback_period klines Hpos Hf Hlen
               _ _ Hrows (price_available _ _ _ Hprice)).
    rewrite Hr. simpl. unfold breakout_label.
    destruct (Qlt_bool_spec 0 current_price); [reflexivity | contradiction].
Qed.

Lemma breakout_scan_skips_malformed_rows_witness :
  let client := exchange "ETHUSDT" five_days_one_bad (Numeric 6) in
  List.length (filter malformed five_days_one_bad) = 1%nat /\
  for_each scan_kline five_days_one_bad (0, Infinity)
  = ([parse_warning], Ok (7, Finite 1)) /\
  value (generate_breakout_signal client "ethusdt" 5) = Ok "Consolidamento" /\
  output (generate_breakout_signal client "ethusdt" 5)
  = [Request "get_klines" "ETHUSDT" (Some 5%Z); parse_warning;
     Request "get_symbol_ticker" "ETHUSDT" None].
Proof.
  intros client.
  destruct (breakout_scan_skips_malformed_rows client "ethusdt" 5
              five_days_one_bad 6)
    as (hh & ll & Hscan & _ & _ & _ & Hvalue & Hout).
  - reflexivity.
  - reflexivity.
  - intros H; discriminate H.
  - repeat (constructor; [(left; reflexivity) || (right; reflexivity) |]).
    constructor.
  - reflexivity.
  - split; [reflexivity |].
    assert (E : (hh, ll) = (7, Finite 1)).
    { change (for_each scan_kline five_days_one_bad (0, Infinity))
        with ([parse_warning], @Ok (Q * xfloat) (7, Finite 1)) in Hscan.
      injection Hscan as -> ->. reflexivity. }
    injection E as -> ->.
    split; [reflexivity |]. split; [exact Hvalue | exact Hout].
Defined.

(** C3 as stated fails: the caller cannot tell the number of skipped rows.
    A window with one malformed row and a window with two return the same
    value, so no function of the returned value is the skip count. *)
Lemma skip_count_not_returned_counterexample :
  let run history :=
    value (generate_breakout_signal
             (exchange "ETHUSDT" history (Numeric 6)) "ETHUSDT" 5) in
  run five_days_one_bad = Ok "Consolidamento" /\
  run five_days_two_bad = Ok "Consolidamento" /\
  List.length (filter malformed five_days_one_bad) = 1%nat /\
  List.length (filter malformed five_days_two_bad) = 2%nat /\
  ~ (exists skip_count : result string -> nat,
        forall history,
          skip_count (run history) = List.length (filter malformed history)).
Proof.
  intros run.
  split; [reflexivity |]. split; [reflexivity |].
  split; [reflexivity |]. split; [reflexivity |].
  intros [skip_count H].
  pose proof (H five_days_one_bad) as H1.
  pose proof (H five_days_two_bad) as H2.
  change (run five_days_one_bad) with (@Ok string "Consolidamento") in H1.
  change (run five_days_two_bad) with (@Ok string "Consolidamento") in H2.
  change (List.length (filter malformed five_days_one_bad)) with 1%nat in H1.
  change (List.length (filter malformed five_days_two_bad)) with 2%nat in H2.
  congruence.
Qed.

Lemma breakout_on_unparsable_window_witness :
  let klines : list kline := [[Garbled]; [Numeric 0; Numeric 1; Numeric 2]] in
  let client := exchange "ETHUSDT" klines (Numeric 6) in
  0 < 6 /\
  value (for_each scan_kline klines (0, Infinity)) = Ok (0, Infinity) /\
  value (generate_breakout_signal client "ethusdt" 2) = Ok "Breakout Rialzista".
Proof.
  intros klines client.
  assert (Hp : 0 < 6) by reflexivity.
  split; [exact Hp |].
  apply (breakout_on_unparsable_window client "ethusdt" 2 klines 6).
  - reflexivity.
  - reflexivity.
  - intros H; discriminate H.
  - repeat constructor.
  - reflexivity.
  - exact Hp.
Defined.

(** C9 as stated fails when the fields that do not parse are null: reading
    them raises [TypeError], which the scan does not catch, and the run ends
    with the internal-error text whatever the price is. *)
Lemma breakout_on_null_window_counterexample :
  let client := exchange "ETHUSDT" two_days_null (Numeric 6) in
  Forall (fun k => unreadable 2 k) two_days_null /\
  0 < 6 /\
  value (generate_breakout_signal client "ethusdt" 2)
  = Ok "Errore interno nel calcolo breakout." /\
  ~ (forall client symbol lookback_period klines current_price,
        (0 < lookback_period)%Z ->
        get_klines client (upper symbol) "1d" lookback_period = Ok klines ->
        (lookback_period <= len klines)%Z ->
        Forall (fun k => unreadable 2 k \/ unreadable 3 k) klines ->
        value (get_binance_price_pb client symbol) = Ok (Some current_price) ->
        0 < current_price ->
        value (generate_breakout_signal client symbol lookback_period)
        = Ok "Breakout Rialzista").
Proof.
  intros client.
  assert (H2 : unreadable 2 null_candle) by (intros x H; discriminate H).
  split; [repeat (constructor; [exact H2 |]); constructor |].
  split; [reflexivity |]. split; [reflexivity |].
  intros H.
  specialize (H client "ethusdt" 2%Z two_days_null 6).
  assert (E : value (generate_breakout_signal client "ethusdt" 2)
              = Ok "Breakout Rialzista").
  { apply H.
    - reflexivity.
    - reflexivity.
    - intros L; discriminate L.
    - repeat (constructor; [left; exact H2 |]). constructor.
    - reflexivity.
    - reflexivity. }
  discriminate E.
Qed.

(** ** get_average_historical_volume *)


Lemma Forall2_removelast {A B : Type} (R : A -> B -> Prop) (l : list A)
  (l' : list B) :
  Forall2 R l l' -> Forall2 R (removelast l) (removelast l').
Proof.
  induction 1 as [| x y l l' Hxy H IH]; [constructor |].
  destruct H as [| x' y' l l' Hxy' H]; [constructor |].
  change (Forall2 R (x :: removelast (x' :: l)) (y :: removelast (y' :: l'))).
  constructor; [exact Hxy | exact IH].
Qed.

Lemma removelast_length {A : Type} (l : list A) :
  List.length (removelast l) = (List.length l - 1)%nat.
Proof.
  induction l as [| x l IH]; [reflexivity |].
  destruct l as [| y l]; [reflexivity |].
  change (removelast (x :: y :: l)) with (x :: removelast (y :: l)).
  simpl List.length in *. rewrite IH. lia.
Qed.

(** What the statements before the debugging line compute: the mean of the
    volumes of all candles but the last. *)
Lemma average_closed_volume_mean (klines : list kline) (volumes : list Q) :
  (2 <= len klines)%Z ->
  Forall2 volume_of klines volumes ->
  exists m,
    average_closed_volume klines = Ok (removelast volumes, m) /\
    m = float_mean (removelast volumes).
Proof.
  intros Hlen Hv. unfold average_closed_volume.
  rewrite slice_to_minus_one.
  rewrite (comprehension_numeric 5 _ _ (Forall2_removelast _ _ _ Hv)). simpl.
  assert (Hne : removelast volumes <> []).
  { intros E. apply (f_equal (@List.length Q)) in E.
    rewrite removelast_length, <- (Forall2_length Hv) in E.
    unfold len in Hlen. simpl in E. lia. }
  rewrite (mean_nonempty _ Hne). simpl.
  eexists. split; reflexivity.
Qed.


(** Joining the text with the number of candles raises [TypeError], inside
    the [try]: whatever was computed, the handler returns [None]. *)
Lemma get_average_historical_volume_always_None (client : Client)
  (symbol : string) (lookback_period : Z) :
  value (get_average_historical_volume client symbol lookback_period) = Ok None.
Proof.
  unfold get_average_historical_volume.
  destruct (lookback_period <=? 0)%Z; [reflexivity |].
  unfold call_get_klines, bind, try.
  destruct (get_klines client (upper symbol) "1d" (lookback_period + 1))
    as [klines | e]; [| reflexivity].
  destruct (negb (truthy klines) || (len klines <? lookback_period + 1)%Z);
    [reflexivity |].
  unfold lift.
  destruct (average_closed_volume klines) as [[closing_volumes average_volume] | e];
    reflexivity.
Qed.

(** C1 fails on the code.  On an answer of at least [lookback_period + 1]
    candles with numeric volumes the function does compute the mean of the
    volumes of all candles but the last, and then returns [None]: the line
    that reports the number of candles raises before the [return]. *)
Theorem get_average_historical_volume_loses_mean (client : Client)
  (symbol : string) (lookback_period : Z) (klines : list kline)
  (volumes : list Q) :
  (0 < lookback_period)%Z ->
  get_klines client (upper symbol) "1d" (lookback_period + 1) = Ok klines ->
  (lookback_period + 1 <= len klines)%Z ->
  Forall2 volume_of klines volumes ->
  (exists m,
      average_closed_volume klines = Ok (removelast volumes, m) /\
      m = float_mean (removelast volumes)) /\
  value (get_average_historical_volume client symbol lookback_period) = Ok None.
Proof.
  intros Hpos Hf Hlen Hv. split.
  - apply average_closed_volume_mean; [lia | exact Hv].
  - apply get_average_historical_volume_always_None.
Qed.

Lemma get_average_historical_volume_loses_mean_witness :
  let client := exchange "ETHUSDT" three_days (Numeric 6) in
  (exists m,
      average_closed_volume three_days = Ok ([10; 20], m) /\
      m = float_mean [10; 20]) /\
  float_mean [10; 20] = 15 /\
  value (get_average_historical_volume client "ethusdt" 2) = Ok None.
Proof.
  intros client.
  destruct (get_average_historical_volume_loses_mean client "ethusdt" 2
              three_days [10; 20; 30]) as [Hmean Hnone].
  - reflexivity.
  - reflexivity.
  - intros H; discriminate H.
  - repeat constructor.
  - split; [exact Hmean |]. split; [reflexivity | exact Hnone].
Defined.

(** ** get_current_volume *)

(** The current volume is the volume field of the one candle asked for, the
    most recent one. *)
Lemma get_current_volume_last (listed : string) (history : list kline)
  (k : kline) (price : cell) (symbol : string) (v : Q) :
  upper symbol = listed -> volume_of k v ->
  value (get_current_volume (exchange listed (history ++ [k]) price) symbol)
  = Ok (Some v).
Proof.
  intros Hs Hv. unfold get_current_volume, call_get_klines, bind, try.
  rewrite Hs, exchange_get_klines by reflexivity.
  change (Z.to_nat 1) with 1%nat.
  rewrite (lastn_snoc 1 history k) by lia.
  unfold lastn. rewrite Nat.sub_0_r, skipn_all. simpl.
  unfold volume_of, numeric_at in Hv. unfold item. rewrite Hv. reflexivity.
Qed.

(** ** The policy on malformed records *)




(** * Further properties of the code *)

(** ** get_binance_price_pb: when a price is available *)

(** X1.  The price is available exactly when the ticker request succeeds and its
    answer carries a number under ['price'].  A failed request, an empty
    answer, an answer without the key and a price that is not a number all
    give [None]; no exception leaves the function. *)
Theorem get_binance_price_pb_available (client : Client) (symbol : string) :
  let run := get_binance_price_pb client symbol in
  (forall price,
      value run = Ok (Some price) <->
      exists ticker,
        get_symbol_ticker client (upper symbol) = Ok ticker /\
        lookup "price" ticker = Some (Numeric price)) /\
  (value run = Ok None <->
   forall ticker price,
     get_symbol_ticker client (upper symbol) = Ok ticker ->
     lookup "price" ticker <> Some (Numeric price)).
Proof.
  intros run. unfold run, get_binance_price_pb, call_get_symbol_ticker, bind, try.
  destruct (get_symbol_ticker client (upper symbol)) as [ticker | e].
  - unfold contains, getitem, lift.
    destruct (lookup "price" ticker) as [[x | |] |] eqn:El;
      destruct ticker as [| entry ticker]; try discriminate El; simpl;
      (split;
       [ intros price; split;
         [ intros H; try discriminate H; injection H as <-; eauto
         | intros (t & Ht & Hl); injection Ht as <-; congruence ]
       | split;
         [ intros H; try discriminate H; intros t p Ht; injection Ht as <-;
           congruence
         | intros H; try reflexivity; exfalso; eapply H; eauto ] ]).
  - simpl. split.
    + intros price. split; [discriminate | intros (t & Ht & _); discriminate Ht].
    + split; [intros _ t p Ht; discriminate Ht | reflexivity].
Qed.

(** ** get_moving_averages: what it returns and what it asks *)

Lemma read_numeric_inv (i : nat) (k : kline) (x : Q) :
  rbind (item k i) float = Ok x -> numeric_at i k x.
Proof.
  unfold numeric_at, item. destruct (nth_error k i) as [[y | |] |]; simpl;
    intros H; try discriminate H. now injection H as ->.
Qed.

Lemma comprehension_numeric_inv (i : nat) (klines : list kline) :
  forall xs,
    comprehension (fun kline => rbind (item kline i) float) klines = Ok xs ->
    Forall2 (numeric_at i) klines xs.
Proof.
  induction klines as [| k klines IH]; simpl; intros xs H.
  - injection H as <-. constructor.
  - destruct (rbind (item k i) float) as [x |] eqn:Ex; simpl in H;
      [| discriminate H].
    destruct (comprehension (fun kline => rbind (item kline i) float) klines)
      as [ys |]; simpl in H; [| discriminate H].
    injection H as <-. constructor; [now apply read_numeric_inv | now apply IH].
Qed.

Lemma moving_averages_outcome (client : Client) (symbol : string)
  (short_period long_period : Z) :
  let run := get_moving_averages client symbol short_period long_period in
  value run = Ok (None, None) \/
  exists klines prices,
    (0 < short_period <= long_period)%Z /\
    get_klines client (upper symbol) "1d" long_period = Ok klines /\
    (long_period <= len klines)%Z /\
    Forall2 close_of klines prices /\
    let window := lastn (Z.to_nat short_period) prices in
    value run = Ok (Some (float_mean window), Some (float_mean prices)).
Proof.
  intros run.
  destruct (Z_lt_le_dec 0 short_period) as [Hs |];
    [| left; unfold run; rewrite moving_averages_invalid by lia; reflexivity].
  destruct (Z_le_gt_dec short_period long_period) as [Hl |];
    [| left; unfold run; rewrite moving_averages_invalid by lia; reflexivity].
  destruct (get_klines client (upper symbol) "1d" long_period)
    as [klines | e] eqn:Ef;
    [| left; now apply (moving_averages_fetch_raises _ _ _ _ e)].
  destruct (Z_lt_le_dec (len klines) long_period) as [Hlen | Hlen];
    [left; now apply (moving_averages_insufficient _ _ _ _ klines) |].
  destruct (comprehension (fun kline => rbind (item kline 4) float) klines)
    as [prices | e] eqn:Ec.
  - right. exists klines, prices.
    pose proof (comprehension_numeric_inv 4 klines prices Ec) as Hc.
    split; [lia |]. split; [reflexivity |]. split; [exact Hlen |].
    split; [exact Hc |].
    intros window. unfold run.
    now rewrite (moving_averages_computed client symbol short_period long_period
                   klines prices (conj Hs Hl) Ef Hlen Hc).
  - left. unfold run, get_moving_averages.
    rewrite (periods_accepted short_period long_period (conj Hs Hl)).
    unfold call_get_klines, bind, try. rewrite Ef.
    rewrite enough_klines by lia. unfold lift. rewrite Ec. reflexivity.
Qed.

(** X2.  Both averages or none.  The function returns two numbers exactly when
    the periods are valid, the exchange answers with at least [long_period]
    candles and every close of the answer is a number; in every other case it
    returns [(None, None)].  It never returns one average without the other
    and never raises. *)
Theorem get_moving_averages_all_or_nothing (client : Client) (symbol : string)
  (short_period long_period : Z) :
  let run := get_moving_averages client symbol short_period long_period in
  ((exists short_sma long_sma, value run = Ok (Some short_sma, Some long_sma))
   <->
   (0 < short_period <= long_period)%Z /\
   exists klines prices,
     get_klines client (upper symbol) "1d" long_period = Ok klines /\
     (long_period <= len klines)%Z /\
     Forall2 close_of klines prices) /\
  (value run = Ok (None, None) \/
   exists short_sma long_sma, value run = Ok (Some short_sma, Some long_sma)).
Proof.
  intros run.
  pose proof (moving_averages_outcome client symbol short_period long_period)
    as Hall.
  cbv zeta in Hall. fold run in Hall. split; [split |].
  - intros (s & l & Hv).
    destruct Hall as [Hnone | (klines & prices & Hp & Hf & Hlen & Hc & _)].
    + rewrite Hv in Hnone. discriminate Hnone.
    + split; [exact Hp |]. now exists klines, prices.
  - intros (Hp & klines & prices & Hf & Hlen & Hc).
    unfold run.
    rewrite (moving_averages_computed client symbol short_period long_period
               klines prices Hp Hf Hlen Hc).
    eexists. eexists. reflexivity.
  - destruct Hall as [Hnone | (klines & prices & _ & _ & _ & _ & Hv)];
      [now left | right]. eexists. eexists. exact Hv.
Qed.

(** X3.  One data pull.  With valid periods the run sends exactly one request to
    the exchange, for [long_period] daily candles of the upper-cased symbol,
    whatever the answer is. *)
Theorem get_moving_averages_one_request (client : Client) (symbol : string)
  (short_period long_period : Z) :
  (0 < short_period <= long_period)%Z ->
  requests (output (get_moving_averages client symbol short_period long_period))
  = [Request "get_klines" (upper symbol) (Some long_period)].
Proof.
  intros Hp. unfold get_moving_averages.
  rewrite (periods_accepted short_period long_period Hp).
  unfold call_get_klines, bind, try, lift.
  destruct (get_klines client (upper symbol) "1d" long_period) as [klines | e];
    [| reflexivity].
  destruct (negb (truthy klines) || (len klines <? long_period)%Z);
    [reflexivity |].
  destruct (comprehension (fun kline => rbind (item kline 4) float) klines)
    as [prices | e]; [| reflexivity].
  destruct (mean prices) as [long_sma | e]; [| reflexivity].
  destruct (mean (slice_from (- short_period) prices)) as [short_sma | e];
    reflexivity.
Qed.

Lemma get_moving_averages_one_request_witness :
  (0 < 1 <= 3)%Z /\
  requests (output (get_moving_averages
                      (exchange "ETHUSDT" three_days (Numeric 6)) "ethusdt" 1 3))
  = [Request "get_klines" "ETHUSDT" (Some 3%Z)].
Proof.
  assert (Hp : (0 < 1 <= 3)%Z) by (split; [reflexivity | intros H; discriminate H]).
  split; [exact Hp |].
  exact (get_moving_averages_one_request
           (exchange "ETHUSDT" three_days (Numeric 6)) "ethusdt" 1 3 Hp).
Defined.

(** ** generate_crossover_signal: a negative long average *)

(** X6.  The relative difference is taken against the long average itself, not
    its absolute value: for a threshold [t >= 0] a negative long average
    always gives "Hold", so that "Rialzista" and "Ribassista" are only ever
    answered on a positive long average. *)
Theorem generate_crossover_signal_negative_long (short_ma long_ma t : Q) :
  0 <= t ->
  let signal := generate_crossover_signal (Some short_ma) (Some long_ma) t in
  (long_ma < 0 -> signal = "Hold") /\
  (signal = "Rialzista" \/ signal = "Ribassista" -> 0 < long_ma).
Proof.
  intros Ht signal.
  assert (Hneg : long_ma < 0 -> signal = "Hold").
  { intros Hl. unfold signal. apply crossover_hold; [lra |].
    apply Qle_trans with 0; [| exact Ht].
    unfold fmul, truediv. apply round_nonpos.
    assert (Hr : round (Qabs (fsub short_ma long_ma) / long_ma) <= 0).
    { apply round_nonpos.
      pose proof (Qabs_nonneg (fsub short_ma long_ma)) as Ha.
      set (a := Qabs (fsub short_ma long_ma)) in *.
      assert (Hp : 0 <= a / - long_ma).
      { apply Qle_shift_div_l; lra. }
      assert (E : a / long_ma == - (a / - long_ma)) by (field; lra).
      rewrite E. lra. }
    lra. }
  split; [exact Hneg |].
  intros Hs.
  destruct (Q_dec long_ma 0) as [[Hl | Hl] | Hl].
  - rewrite (Hneg Hl) in Hs. destruct Hs as [Hs | Hs]; discriminate Hs.
  - exact Hl.
  - unfold signal in Hs. rewrite (crossover_invalid _ _ _ Hl) in Hs.
    destruct Hs as [Hs | Hs]; discriminate Hs.
Qed.

Lemma generate_crossover_signal_negative_long_witness :
  0 <= 0.5 /\
  generate_crossover_signal (Some 95) (Some (-100)) 0.5 = "Hold" /\
  (generate_crossover_signal (Some 105) (Some 100) 0.5 = "Rialzista" \/
   generate_crossover_signal (Some 105) (Some 100) 0.5 = "Ribassista" ->
   0 < 100).
Proof.
  assert (Ht : 0 <= 0.5) by (intros H; discriminate H).
  split; [exact Ht |].
  split.
  - apply (proj1 (generate_crossover_signal_negative_long 95 (-100) 0.5 Ht)).
    reflexivity.
  - exact (proj2 (generate_crossover_signal_negative_long 105 100 0.5 Ht)).
Defined.

(** ** generate_volume_signal: order *)

(** X8.  More volume never lowers the signal: with the average and the factors
    fixed, a volume at least as large as one that is signalled high is
    signalled high, and a volume at most as large as one that is signalled
    low is signalled low. *)
Theorem generate_volume_signal_monotone (volume volume' avg_volume high low : Q) :
  volume <= volume' ->
  (generate_volume_signal (Some volume) (Some avg_volume) high low = "RIALZISTA" ->
   generate_volume_signal (Some volume') (Some avg_volume) high low = "RIALZISTA") /\
  (generate_volume_signal (Some volume') (Some avg_volume) high low = "RIBASSISTA" ->
   generate_volume_signal (Some volume) (Some avg_volume) high low = "RIBASSISTA").
Proof.
  intros Hv. unfold generate_volume_signal.
  destruct (Qle_bool_spec avg_volume 0);
    destruct (Qlt_bool_spec (fmul avg_volume high) volume);
    destruct (Qlt_bool_spec (fmul avg_volume high) volume');
    destruct (Qlt_bool_spec volume (fmul avg_volume low));
    destruct (Qlt_bool_spec volume' (fmul avg_volume low));
    split; intros H; try reflexivity; try discriminate H; exfalso; lra.
Qed.

Lemma generate_volume_signal_monotone_witness :
  151 <= 200 /\
  (generate_volume_signal (Some 151) (Some 100) 1.5 0.7 = "RIALZISTA" ->
   generate_volume_signal (Some 200) (Some 100) 1.5 0.7 = "RIALZISTA") /\
  generate_volume_signal (Some 200) (Some 100) 1.5 0.7 = "RIALZISTA".
Proof.
  assert (Hv : 151 <= 200) by (intros H; discriminate H).
  split; [exact Hv |].
  pose proof (proj1 (generate_volume_signal_monotone 151 200 100 1.5 0.7 Hv)) as H.
  split; [exact H | apply H; reflexivity].
Defined.

(** ** generate_breakout_signal: requests and outcomes *)





(** X10.  A lookback period that is not positive is refused before anything is
    asked of the exchange, by the breakout signal (with its error text) and
    by the historical volume (with [None]). *)
Theorem nonpositive_lookback_refused (client : Client) (symbol : string)
  (lookback_period : Z) :
  (lookback_period <= 0)%Z ->
  generate_breakout_signal client symbol lookback_period
  = ([], Ok "Errore: Il lookback period deve essere positivo.") /\
  value (get_average_historical_volume client symbol lookback_period) = Ok None /\
  requests (output (get_average_historical_volume client symbol lookback_period))
  = [].
Proof.
  intros H. unfold generate_breakout_signal, get_average_historical_volume.
  destruct (Z.leb_spec lookback_period 0) as [_ | H']; [| lia].
  repeat split; reflexivity.
Qed.

Lemma nonpositive_lookback_refused_witness :
  let client := exchange "ETHUSDT" three_days (Numeric 6) in
  (0 <= 0)%Z /\
  generate_breakout_signal client "ethusdt" 0
  = ([], Ok "Errore: Il lookback period deve essere positivo.") /\
  value (get_average_historical_volume client "ethusdt" 0) = Ok None /\
  requests (output (get_average_historical_volume client "ethusdt" 0)) = [].
Proof.
  intros client.
  assert (H : (0 <= 0)%Z) by (intros E; discriminate E).
  split; [exact H |].
  exact (nonpositive_lookback_refused client "ethusdt" 0 H).
Defined.



(** ** generate_breakout_signal: what the labels mean *)

Section WindowLabel.

Variables (current_price : Q) (klines : list kline).

Let rows : list (Q * Q) := readable_rows klines.

Lemma above_highest :
  highest (map fst rows) 0 < current_price <->
  0 < current_price /\ forall row, In row rows -> fst row < current_price.
Proof.
  destruct (highest_bounds (map fst rows) 0) as (H0 & Hub & Hmem). split.
  - intros H. split; [lra |].
    intros row Hin. apply Qle_lt_trans with (highest (map fst rows) 0);
      [| exact H]. apply Hub. now apply in_map.
  - intros [Hp Hall]. destruct Hmem as [-> | Hin]; [exact Hp |].
    apply in_map_iff in Hin. destruct Hin as (row & <- & Hin). now apply Hall.
Qed.

Lemma below_lowest :
  Below current_price (lowest (map snd rows) Infinity) <->
  forall row, In row rows -> current_price < snd row.
Proof.
  destruct (lowest_bounds (map snd rows) Infinity) as (Hlb & _ & Hmem). split.
  - intros H row Hin.
    pose proof (Hlb (snd row) (in_map snd rows row Hin)) as Hle.
    destruct (lowest (map snd rows) Infinity) as [y |]; simpl in *;
      [lra | contradiction].
  - intros Hall. destruct Hmem as [-> | (low & Hin & ->)]; [exact I |].
    simpl. apply in_map_iff in Hin. destruct Hin as (row & <- & Hin).
    now apply Hall.
Qed.

Lemma window_label_bullish :
  window_label current_price klines = "Breakout Rialzista" <->
  0 < current_price /\ forall row, In row rows -> fst row < current_price.
Proof.
  unfold window_label. rewrite breakout_label_bullish. apply above_highest.
Qed.

Lemma window_label_bearish :
  window_label current_price klines = "Breakout Ribassista" <->
  ~ (0 < current_price /\ forall row, In row rows -> fst row < current_price) /\
  forall row, In row rows -> current_price < snd row.
Proof.
  unfold window_label. rewrite breakout_label_bearish.
  fold rows. rewrite above_highest, below_lowest. reflexivity.
Qed.

Lemma window_label_consolidation :
  window_label current_price klines = "Consolidamento" <->
  ~ (0 < current_price /\ forall row, In row rows -> fst row < current_price) /\
  ~ (forall row, In row rows -> current_price < snd row).
Proof.
  unfold window_label. rewrite breakout_label_consolidation.
  fold rows. rewrite above_highest, below_lowest. reflexivity.
Qed.

Lemma window_label_range :
  window_label current_price klines = "Breakout Rialzista" \/
  window_label current_price klines = "Breakout Ribassista" \/
  window_label current_price klines = "Consolidamento".
Proof.
  unfold window_label, breakout_label.
  destruct (Qlt_bool _ _); [now left |].
  destruct (below _ _); [right; now left | right; now right].
Qed.

End WindowLabel.

Lemma Ok_inj {A : Type} (a b : A) : Ok a = Ok b <-> a = b.
Proof. split; [intros H; now injection H | now intros ->]. Qed.

Lemma breakout_value (client : Client) (symbol : string) (lookback_period : Z)
  (klines : list kline) (current_price : Q) :
  (0 < lookback_period)%Z ->
  get_klines client (upper symbol) "1d" lookback_period = Ok klines ->
  (lookback_period <= len klines)%Z ->
  scannable klines ->
  value (get_binance_price_pb client symbol) = Ok (Some current_price) ->
  value (generate_breakout_signal client symbol lookback_period)
  = Ok (window_label current_price klines).
Proof.
  intros Hpos Hf Hlen Hscan Hprice.
  now rewrite (breakout_run client symbol lookback_period klines Hpos Hf Hlen
                 _ _ Hscan (price_available _ _ _ Hprice)).
Qed.

(** X12.  What the two breakout labels say about the window.  On an answer the
    scan gets through, with the price available: the bullish label is
    returned exactly when the price is positive and above the high of every
    well-formed row; the bearish label exactly when that fails and the price
    is below the low of every well-formed row. *)
Theorem generate_breakout_signal_sound (client : Client) (symbol : string)
  (lookback_period : Z) (klines : list kline) (current_price : Q) :
  (0 < lookback_period)%Z ->
  get_klines client (upper symbol) "1d" lookback_period = Ok klines ->
  (lookback_period <= len klines)%Z ->
  scannable klines ->
  value (get_binance_price_pb client symbol) = Ok (Some current_price) ->
  let signal := value (generate_breakout_signal client symbol lookback_period) in
  let above_all :=
    0 < current_price /\
    forall row, In row (readable_rows klines) -> fst row < current_price in
  (signal = Ok "Breakout Rialzista" <-> above_all) /\
  (signal = Ok "Breakout Ribassista" <->
   ~ above_all /\
   forall row, In row (readable_rows klines) -> current_price < snd row).
Proof.
  intros Hpos Hf Hlen Hscan Hprice signal above_all. unfold signal.
  rewrite (breakout_value client symbol lookback_period klines current_price
             Hpos Hf Hlen Hscan Hprice).
  rewrite !Ok_inj. split.
  - apply window_label_bullish.
  - apply window_label_bearish.
Qed.

Lemma generate_breakout_signal_sound_witness :
  let client := exchange "ETHUSDT" five_days_one_bad (Numeric 8) in
  (value (generate_breakout_signal client "ethusdt" 5) = Ok "Breakout Rialzista"
   <-> 0 < 8 /\
       forall row, In row (readable_rows five_days_one_bad) -> fst row < 8) /\
  value (generate_breakout_signal client "ethusdt" 5) = Ok "Breakout Rialzista".
Proof.
  intros client.
  destruct (generate_breakout_signal_sound client "ethusdt" 5
              five_days_one_bad 8) as [Hbull _].
  - reflexivity.
  - reflexivity.
  - intros H; discriminate H.
  - repeat (constructor; [(left; reflexivity) || (right; reflexivity) |]).
    constructor.
  - reflexivity.
  - split; [exact Hbull | reflexivity].
Defined.



(** ** generate_breakout_signal: the order of the rows *)

Lemma readable_rows_permutation (klines klines' : list kline) :
  Permutation klines klines' ->
  Permutation (readable_rows klines) (readable_rows klines').
Proof.
  induction 1 as [| k l l' _ IH | k k' l | l l' l'' _ IH _ IH'].
  - constructor.
  - simpl. destruct (readable k); [now constructor | exact IH].
  - simpl. destruct (readable k), (readable k'); try reflexivity.
    apply perm_swap.
  - now transitivity (readable_rows l').
Qed.

Lemma window_label_permutation (current_price : Q) (klines klines' : list kline) :
  Permutation klines klines' ->
  window_label current_price klines = window_label current_price klines'.
Proof.
  intros Hp. pose proof (readable_rows_permutation _ _ Hp) as Hr.
  assert (Hin : forall row,
             In row (readable_rows klines) <-> In row (readable_rows klines')).
  { intros row. split; apply Permutation_in;
      [exact Hr | now apply Permutation_sym]. }
  destruct (window_label_range current_price klines) as [E | [E | E]];
    rewrite E; symmetry.
  - apply window_label_bullish. apply window_label_bullish in E.
    destruct E as [H0 H]. split; [exact H0 |].
    intros row Hrow. apply H. now apply Hin.
  - apply window_label_bearish. apply window_label_bearish in E.
    destruct E as [Hn H]. split.
    + intros [H0 Ha]. apply Hn. split; [exact H0 |].
      intros row Hrow. apply Ha. now apply Hin.
    + intros row Hrow. apply H. now apply Hin.
  - apply window_label_consolidation. apply window_label_consolidation in E.
    destruct E as [Hn Hm]. split.
    + intros [H0 Ha]. apply Hn. split; [exact H0 |].
      intros row Hrow. apply Ha. now apply Hin.
    + intros H. apply Hm. intros row Hrow. apply H. now apply Hin.
Qed.

(** X14.  The signal does not depend on the order of the candles: two answers with
    the same rows in a different order, at the same price, give the same
    signal. *)
Theorem generate_breakout_signal_order (client client' : Client)
  (symbol : string) (lookback_period : Z) (klines klines' : list kline)
  (current_price : Q) :
  (0 < lookback_period)%Z ->
  get_klines client (upper symbol) "1d" lookback_period = Ok klines ->
  get_klines client' (upper symbol) "1d" lookback_period = Ok klines' ->
  Permutation klines klines' ->
  (lookback_period <= len klines)%Z ->
  scannable klines ->
  value (get_binance_price_pb client symbol) = Ok (Some current_price) ->
  value (get_binance_price_pb client' symbol) = Ok (Some current_price) ->
  value (generate_breakout_signal client symbol lookback_period)
  = value (generate_breakout_signal client' symbol lookback_period).
Proof.
  intros Hpos Hf Hf' Hperm Hlen Hscan Hprice Hprice'.
  assert (Hlen' : (lookback_period <= len klines')%Z).
  { unfold len in *. now rewrite <- (Permutation_length Hperm). }
  assert (Hscan' : scannable klines').
  { unfold scannable in *. now apply (Permutation_Forall Hperm). }
  rewrite (breakout_value client symbol lookback_period klines current_price
             Hpos Hf Hlen Hscan Hprice).
  rewrite (breakout_value client' symbol lookback_period klines' current_price
             Hpos Hf' Hlen' Hscan' Hprice').
  f_equal. now apply window_label_permutation.
Qed.

Lemma generate_breakout_signal_order_witness :
  Permutation three_days (rev three_days) /\
  value (generate_breakout_signal
           (exchange "ETHUSDT" three_days (Numeric 8)) "ethusdt" 3)
  = value (generate_breakout_signal
             (exchange "ETHUSDT" (rev three_days) (Numeric 8)) "ethusdt" 3).
Proof.
  assert (Hp : Permutation three_days (rev three_days))
    by apply Permutation_rev.
  split; [exact Hp |].
  apply (generate_breakout_signal_order
           (exchange "ETHUSDT" three_days (Numeric 8))
           (exchange "ETHUSDT" (rev three_days) (Numeric 8))
           "ethusdt" 3 three_days (rev three_days) 8).
  - reflexivity.
  - reflexivity.
  - reflexivity.
  - exact Hp.
  - intros H; discriminate H.
  - repeat (constructor; [left; reflexivity |]). constructor.
  - reflexivity.
  - reflexivity.
Defined.

(** ** get_binance_average_price_30d *)

Lemma mean_ok_nonempty (l : list Q) (m : Q) : mean l = Ok m -> l <> [].
Proof. intros H ->. discriminate H. Qed.

Lemma lastn_nonempty {A : Type} (n : nat) (l : list A) :
  (0 < n)%nat -> l <> [] -> lastn n l <> [].
Proof.
  intros Hn Hl E. apply (f_equal (@List.length A)) in E.
  unfold lastn in E. rewrite length_skipn in E.
  destruct l as [| x l]; [now apply Hl |].
  change (List.length (x :: l)) with (S (List.length l)) in E.
  change (List.length (@nil A)) with 0%nat in E. lia.
Qed.

(** X15.  The 30-day average: [None] on an answer of fewer than 30 candles, and on
    30 candles with numeric closes the mean of all of them, the day in
    progress included. *)
Theorem get_binance_average_price_30d_mean (client : Client) (symbol : string)
  (klines : list kline) :
  get_klines client (upper symbol) "1d" 30 = Ok klines ->
  let run := get_binance_average_price_30d client symbol in
  ((len klines < 30)%Z -> value run = Ok None) /\
  (forall prices,
      (30 <= len klines)%Z -> Forall2 close_of klines prices ->
      exists m, value run = Ok (Some m) /\ m = float_mean prices).
Proof.
  intros Hf run. unfold run, get_binance_average_price_30d.
  unfold call_get_klines, bind, try. rewrite Hf. split.
  - intros Hlen.
    assert (E : negb (truthy klines) || (len klines <? 30)%Z = true).
    { apply orb_true_iff. right. now apply Z.ltb_lt. }
    rewrite E. reflexivity.
  - intros prices Hlen Hc.
    rewrite (enough_klines 30 klines) by lia.
    unfold lift. rewrite (comprehension_numeric 4 klines prices Hc).
    assert (Hne : prices <> []).
    { intros ->. apply Forall2_length in Hc. unfold len in Hlen.
      simpl in Hc. lia. }
    rewrite (mean_nonempty prices Hne). simpl.
    eexists. split; reflexivity.
Qed.

Lemma get_binance_average_price_30d_mean_witness :
  let client := exchange "ETHUSDT" three_days (Numeric 6) in
  let month := exchange "ETHUSDT" (repeat (candle 5 1 2 10) 30) (Numeric 6) in
  (get_klines client (upper "ethusdt") "1d" 30 = Ok three_days /\
   (len three_days < 30)%Z /\
   value (get_binance_average_price_30d client "ethusdt") = Ok None) /\
  (exists m,
      value (get_binance_average_price_30d month "ethusdt") = Ok (Some m) /\
      m = float_mean (repeat 2 30)).
Proof.
  intros client month.
  assert (Hf : get_klines client (upper "ethusdt") "1d" 30 = Ok three_days)
    by reflexivity.
  assert (Hlen : (len three_days < 30)%Z) by reflexivity.
  split.
  - split; [exact Hf |]. split; [exact Hlen |].
    exact (proj1 (get_binance_average_price_30d_mean client "ethusdt"
                    three_days Hf) Hlen).
  - apply (proj2 (get_binance_average_price_30d_mean month "ethusdt"
                    (repeat (candle 5 1 2 10) 30) eq_refl)).
    + intros H; discriminate H.
    + repeat constructor.
Defined.

(** X16.  The 30-day average is the long average of [get_moving_averages] at a
    long period of 30: for every exchange and every valid short period the
    two functions return the same value, number or [None]. *)
Theorem get_binance_average_price_30d_is_long_sma (client : Client)
  (symbol : string) (short_period : Z) :
  (0 < short_period <= 30)%Z ->
  exists short_sma long_sma,
    value (get_moving_averages client symbol short_period 30)
    = Ok (short_sma, long_sma) /\
    value (get_binance_average_price_30d client symbol) = Ok long_sma.
Proof.
  intros Hp. unfold get_moving_averages, get_binance_average_price_30d.
  rewrite (periods_accepted short_period 30 Hp).
  unfold call_get_klines, bind, try, lift.
  destruct (get_klines client (upper symbol) "1d" 30) as [klines | e];
    [| simpl; eauto].
  destruct (negb (truthy klines) || (len klines <? 30)%Z); [simpl; eauto |].
  destruct (comprehension (fun kline => rbind (item kline 4) float) klines)
    as [prices | e]; [| simpl; eauto].
  destruct (mean prices) as [m | e] eqn:Em; [| simpl; eauto].
  rewrite slice_from_negative by lia.
  rewrite mean_nonempty; [simpl; eauto |].
  apply lastn_nonempty; [lia | now apply (mean_ok_nonempty prices m)].
Qed.

Lemma get_binance_average_price_30d_is_long_sma_witness :
  (0 < 20 <= 30)%Z /\
  exists short_sma long_sma,
    value (get_moving_averages
             (exchange "ETHUSDT" three_days (Numeric 6)) "ethusdt" 20 30)
    = Ok (short_sma, long_sma) /\
    value (get_binance_average_price_30d
             (exchange "ETHUSDT" three_days (Numeric 6)) "ethusdt")
    = Ok long_sma.
Proof.
  assert (Hp : (0 < 20 <= 30)%Z)
    by (split; [reflexivity | intros H; discriminate H]).
  split; [exact Hp |].
  exact (get_binance_average_price_30d_is_long_sma
           (exchange "ETHUSDT" three_days (Numeric 6)) "ethusdt" 20 Hp).
Defined.

(** ** The volume functions *)

(** X17.  The current volume is available exactly when the answer to the request
    for one candle is not empty and its first row carries a number in the
    volume field; otherwise the function returns [None]. *)
Theorem get_current_volume_available (client : Client) (symbol : string) :
  let run := get_current_volume client symbol in
  (forall volume,
      value run = Ok (Some volume) <->
      exists k rest,
        get_klines client (upper symbol) "1d" 1 = Ok (k :: rest) /\
        volume_of k volume) /\
  (value run = Ok None <->
   forall k rest volume,
     get_klines client (upper symbol) "1d" 1 = Ok (k :: rest) ->
     ~ volume_of k volume).
Proof.
  intros run. unfold run, get_current_volume, call_get_klines, bind, try, lift.
  unfold volume_of, numeric_at.
  destruct (get_klines client (upper symbol) "1d" 1) as [[| k rest] | e].
  - simpl. split.
    + intros v. split; [discriminate | intros (k & r & H & _); discriminate H].
    + split; [intros _ k r v H; discriminate H | reflexivity].
  - change (negb (truthy (k :: rest)) || (len (k :: rest) =? 0)%Z) with false.
    change (item (k :: rest) 0) with (Ok k). cbn [rbind]. unfold item.
    destruct (nth_error k 5) as [[x | |] |] eqn:E; cbn -[nth_error];
      (split;
       [ intros v; split;
         [ intros H; try discriminate H; injection H as <-; eauto
         | intros (k' & r & H & Hv); injection H as <- <-; congruence ]
       | split;
         [ intros H; try discriminate H; intros k' r v Hk; injection Hk as <- <-;
           congruence
         | intros H; try reflexivity; exfalso; eapply H; eauto ] ]).
  - simpl. split.
    + intros v. split; [discriminate | intros (k & r & H & _); discriminate H].
    + split; [intros _ k r v H; discriminate H | reflexivity].
Qed.

(** The open candle is left out of the historical mean: the volumes and the
    mean that [get_average_historical_volume] computes from an answer do not
    depend on its last row. *)
Theorem average_closed_volume_ignores_open_candle (closed : list kline)
  (open_candle open_candle' : kline) :
  average_closed_volume (closed ++ [open_candle])
  = average_closed_volume (closed ++ [open_candle']).
Proof.
  unfold average_closed_volume.
  now rewrite !slice_to_minus_one, !removelast_last.
Qed.

(** The volume analysis always reports missing data: whatever the exchange
    answers, the historical mean is [None], so the signal computed from the
    current volume and that mean is the unavailable text. *)
Theorem volume_analysis_unavailable (client : Client) (symbol : string)
  (lookback_period : Z) (high low : Q)
  (current_volume avg_volume : option Q) :
  value (get_current_volume client symbol) = Ok current_volume ->
  value (get_average_historical_volume client symbol lookback_period)
  = Ok avg_volume ->
  generate_volume_signal current_volume avg_volume high low
  = "Dati Volume non disponibili".
Proof.
  intros _ Ha.
  rewrite get_average_historical_volume_always_None in Ha.
  injection Ha as <-. destruct current_volume; reflexivity.
Qed.

Lemma volume_analysis_unavailable_witness :
  let client := exchange "ETHUSDT" three_days (Numeric 6) in
  value (get_current_volume client "ethusdt") = Ok (Some 30) /\
  value (get_average_historical_volume client "ethusdt" 2) = Ok None /\
  generate_volume_signal (Some 30) None 1.5 0.7 = "Dati Volume non disponibili".
Proof.
  intros client.
  assert (Hc : value (get_current_volume client "ethusdt") = Ok (Some 30))
    by reflexivity.
  assert (Ha : value (get_average_historical_volume client "ethusdt" 2) = Ok None)
    by reflexivity.
  split; [exact Hc |]. split; [exact Ha |].
  exact (volume_analysis_unavailable client "ethusdt" 2 1.5 0.7 (Some 30) None
           Hc Ha).
Defined.

(** ** The symbol is upper-cased *)

Lemma upper_ascii_idempotent (c : ascii) :
  upper_ascii (upper_ascii c) = upper_ascii c.
Proof. destruct c as [[] [] [] [] [] [] [] []]; reflexivity. Qed.

Lemma upper_idempotent (s : string) : upper (upper s) = upper s.
Proof.
  induction s as [| c s IH]; [reflexivity |].
  simpl. now rewrite upper_ascii_idempotent, IH.
Qed.

(** X18.  Letter case of the symbol does not matter: every function that takes a
    symbol returns for it what it returns for its upper-case form, on every
    exchange. *)
Theorem symbol_case_insensitive (client : Client) (symbol : string) :
  value (get_binance_price_pb client symbol)
  = value (get_binance_price_pb client (upper symbol)) /\
  value (get_binance_average_price_30d client symbol)
  = value (get_binance_average_price_30d client (upper symbol)) /\
  (forall short_period long_period,
      value (get_moving_averages client symbol short_period long_period)
      = value (get_moving_averages client (upper symbol) short_period long_period)) /\
  (forall lookback_period,
      value (generate_breakout_signal client symbol lookback_period)
      = value (generate_breakout_signal client (upper symbol) lookback_period)) /\
  value (get_current_volume client symbol)
  = value (get_current_volume client (upper symbol)) /\
  (forall lookback_period,
      value (get_average_historical_volume client symbol lookback_period)
      = value (get_average_historical_volume client (upper symbol) lookback_period)).
Proof.
  repeat split; intros;
    unfold get_binance_price_pb, get_binance_average_price_30d,
      get_moving_averages, generate_breakout_signal, get_current_volume,
      get_average_historical_volume, get_binance_price_pb;
    rewrite upper_idempotent; reflexivity.
Qed.

(** ** handle_button_click *)

Lemma crossover_labels (short_ma long_ma : option Q) (t : Q) :
  let signal := generate_crossover_signal short_ma long_ma t in
  (startswith signal "Dati MA non" = true /\
   (short_ma = None \/ long_ma = None \/ exists l, long_ma = Some l /\ l == 0) /\
   (signal = "Dati MA non disponibili" \/
    signal = "Dati MA non validi (MA lunga = 0)")) \/
  (startswith signal "Dati MA non" = false /\
   (exists s l, short_ma = Some s /\ long_ma = Some l /\ ~ l == 0) /\
   (signal = "Rialzista" \/ signal = "Ribassista" \/ signal = "Hold")).
Proof.
  intros signal. unfold signal, generate_crossover_signal.
  destruct short_ma as [s |]; destruct long_ma as [l |];
    try (left; split; [reflexivity | split; [tauto | now left]]).
  destruct (Qeq_bool_spec l 0) as [Hz | Hnz].
  - left. split; [reflexivity |]. split; [| now right].
    right. right. now exists l.
  - right. cbv zeta.
    destruct (Qlt_bool _ _); [destruct (Qlt_bool _ _) |];
      (split; [reflexivity |]; split; [now exists s, l |]); tauto.
Qed.


(** X19.  The moving-average button.  The answer is either the failure message,
    carrying one of the two failure texts of the crossover signal, or the
    signal message, carrying "Rialzista", "Ribassista" or "Hold" together
    with both averages: a signal is never shown without its two numbers, and
    a failure text is never shown as a signal. *)
Theorem handle_button_click_moving_average (client : Client) :
  let answer :=
    value (handle_button_click client
             (String.append "get_ma_signal_" CRYPTO_SYMBOL)) in
  (exists signal,
      answer = Ok (MaFailure signal) /\
      (signal = "Dati MA non disponibili" \/
       signal = "Dati MA non validi (MA lunga = 0)")) \/
  (exists signal short_ma long_ma,
      answer = Ok (MaMessage signal (Some (short_ma, long_ma))) /\
      value (get_moving_averages client CRYPTO_SYMBOL
               SHORT_MA_PERIOD LONG_MA_PERIOD)
      = Ok (Some short_ma, Some long_ma) /\
      signal = generate_crossover_signal (Some short_ma) (Some long_ma)
                 MA_PROXIMITY_THRESHOLD_PERCENT /\
      (signal = "Rialzista" \/ signal = "Ribassista" \/ signal = "Hold")).
Proof.
  intros answer. unfold answer, handle_button_click.
  change (String.eqb (String.append "get_ma_signal_" CRYPTO_SYMBOL)
            (String.append "get_price_" CRYPTO_SYMBOL)) with false.
  change (String.eqb (String.append "get_ma_signal_" CRYPTO_SYMBOL)
            (String.append "get_ma_signal_" CRYPTO_SYMBOL)) with true.
  cbv iota.
  pose proof (moving_averages_outcome client CRYPTO_SYMBOL
                SHORT_MA_PERIOD LONG_MA_PERIOD) as Hall.
  cbv zeta in Hall.
  destruct (get_moving_averages client CRYPTO_SYMBOL SHORT_MA_PERIOD
              LONG_MA_PERIOD) as [t r].
  unfold value in Hall. simpl snd in Hall. unfold bind.
  destruct Hall as [-> | (klines & prices & _ & _ & _ & _ & ->)].
  - left. exists "Dati MA non disponibili". split; [reflexivity | now left].
  - set (s := float_mean (lastn (Z.to_nat SHORT_MA_PERIOD) prices)).
    set (l := float_mean prices).
    destruct (crossover_labels (Some s) (Some l) MA_PROXIMITY_THRESHOLD_PERCENT)
      as [(Hf & _ & Hlab) | (Hf & _ & Hlab)]; cbv zeta in Hf, Hlab.
    + left. rewrite Hf.
      exists (generate_crossover_signal (Some s) (Some l)
                MA_PROXIMITY_THRESHOLD_PERCENT).
      split; [reflexivity | exact Hlab].
    + right. rewrite Hf.
      exists (generate_crossover_signal (Some s) (Some l)
                MA_PROXIMITY_THRESHOLD_PERCENT), s, l.
      repeat split; try reflexivity. exact Hlab.
Qed.

(** Every run of the breakout signal ends with one of seven texts, whatever
    the exchange does: it never raises. *)
Lemma breakout_texts (client : Client) (symbol : string) (lookback_period : Z) :
  exists signal,
    value (generate_breakout_signal client symbol lookback_period) = Ok signal /\
    In signal
      ["Breakout Rialzista"; "Breakout Ribassista"; "Consolidamento";
       "Errore: Il lookback period deve essere positivo.";
       "Dati storici insufficienti per breakout";
       "Errore nel recupero prezzo attuale per breakout";
       "Errore interno nel calcolo breakout."].
Proof.
  unfold generate_breakout_signal.
  destruct (lookback_period <=? 0)%Z; [eexists; split; [reflexivity | simpl; tauto] |].
  unfold call_get_klines, bind, try.
  destruct (get_klines client (upper symbol) "1d" lookback_period)
    as [klines | e]; [| eexists; split; [reflexivity | simpl; tauto]].
  destruct (negb (truthy klines) || (len klines <? lookback_period)%Z);
    [eexists; split; [reflexivity | simpl; tauto] |].
  destruct (for_each scan_kline klines (0, Infinity)) as [t [[hh ll] | e]];
    [| eexists; split; [reflexivity | simpl; tauto]].
  destruct (get_binance_price_pb_total client symbol) as (tp & price & ->).
  destruct price as [p |]; [| eexists; split; [reflexivity | simpl; tauto]].
  unfold ret, breakout_label.
  destruct (Qlt_bool hh p); [eexists; split; [reflexivity | simpl; tauto] |].
  destruct (below p ll); eexists; (split; [reflexivity | simpl; tauto]).
Qed.


(** X20.  The breakout button.  The answer is either the signal message, carrying
    one of the three signals, or the failure message, carrying one of the
    four failure texts of the breakout function: the handler's test on the
    text separates them on every run. *)
Theorem handle_button_click_breakout (client : Client) :
  let answer :=
    value (handle_button_click client
             (String.append "get_breakout_signal_" CRYPTO_SYMBOL)) in
  (exists signal,
      answer = Ok (BreakoutMessage signal) /\
      In signal ["Breakout Rialzista"; "Breakout Ribassista"; "Consolidamento"])
  \/
  (exists signal,
      answer = Ok (BreakoutFailure signal) /\
      In signal
        ["Errore: Il lookback period deve essere positivo.";
         "Dati storici insufficienti per breakout";
         "Errore nel recupero prezzo attuale per breakout";
         "Errore interno nel calcolo breakout."]).
Proof.
  intros answer. unfold answer, handle_button_click.
  change (String.eqb (String.append "get_breakout_signal_" CRYPTO_SYMBOL)
            (String.append "get_price_" CRYPTO_SYMBOL)) with false.
  change (String.eqb (String.append "get_breakout_signal_" CRYPTO_SYMBOL)
            (String.append "get_ma_signal_" CRYPTO_SYMBOL)) with false.
  change (String.eqb (String.append "get_breakout_signal_" CRYPTO_SYMBOL)
            (String.append "get_breakout_signal_" CRYPTO_SYMBOL)) with true.
  cbv iota.
  destruct (breakout_texts client CRYPTO_SYMBOL BREAKOUT_LOOKBACK_PERIOD)
    as (signal & Hv & Hin).
  destruct (generate_breakout_signal client CRYPTO_SYMBOL
              BREAKOUT_LOOKBACK_PERIOD) as [t r].
  simpl in Hv. subst r. unfold bind.
  simpl in Hin.
  destruct Hin as [<- | [<- | [<- | [<- | [<- | [<- | [<- | []]]]]]]];
    [left | left | left | right | right | right | right];
    eexists; (split; [reflexivity | simpl; tauto]).
Qed.

(** X21.  Only the three buttons do anything.  A click whose [callback_data] is
    not that of a button of the keyboard gets the fallback text and sends
    nothing to the exchange; the [callback_data] of each button gets the
    answer of its own analysis, never the fallback. *)
Theorem handle_button_click_dispatch (client : Client) (callback_data : string) :
  let run := handle_button_click client callback_data in
  (~ In callback_data (map snd (List.concat keyboard)) ->
   run = ([], Ok Fallback)) /\
  (callback_data = String.append "get_price_" CRYPTO_SYMBOL ->
   exists price,
     value (get_binance_price_pb client CRYPTO_SYMBOL) = Ok price /\
     value run = Ok match price with
                    | Some price => PriceMessage price
                    | None => PriceFailure
                    end) /\
  (callback_data = String.append "get_ma_signal_" CRYPTO_SYMBOL ->
   exists signal values,
     value run = Ok (MaFailure signal) \/
     value run = Ok (MaMessage signal values)) /\
  (callback_data = String.append "get_breakout_signal_" CRYPTO_SYMBOL ->
   exists signal,
     value run = Ok (BreakoutFailure signal) \/
     value run = Ok (BreakoutMessage signal)).
Proof.
  intros run. unfold run. split; [| split; [| split]].
  - intros Hnot. unfold handle_button_click.
    destruct (String.eqb_spec callback_data
                (String.append "get_price_" CRYPTO_SYMBOL)) as [-> | _];
      [exfalso; apply Hnot; simpl; tauto |].
    destruct (String.eqb_spec callback_data
                (String.append "get_ma_signal_" CRYPTO_SYMBOL)) as [-> | _];
      [exfalso; apply Hnot; simpl; tauto |].
    destruct (String.eqb_spec callback_data
                (String.append "get_breakout_signal_" CRYPTO_SYMBOL)) as [-> | _];
      [exfalso; apply Hnot; simpl; tauto |].
    reflexivity.
  - intros ->. unfold handle_button_click.
    change (String.eqb (String.append "get_price_" CRYPTO_SYMBOL)
              (String.append "get_price_" CRYPTO_SYMBOL)) with true.
    cbv iota.
    destruct (get_binance_price_pb_total client CRYPTO_SYMBOL)
      as (t & price & ->).
    exists price. split; [reflexivity |]. destruct price; reflexivity.
  - intros ->. unfold handle_button_click.
    change (String.eqb (String.append "get_ma_signal_" CRYPTO_SYMBOL)
              (String.append "get_price_" CRYPTO_SYMBOL)) with false.
    change (String.eqb (String.append "get_ma_signal_" CRYPTO_SYMBOL)
              (String.append "get_ma_signal_" CRYPTO_SYMBOL)) with true.
    cbv iota.
    pose proof (moving_averages_outcome client CRYPTO_SYMBOL
                  SHORT_MA_PERIOD LONG_MA_PERIOD) as Hall.
    cbv zeta in Hall.
    destruct (get_moving_averages client CRYPTO_SYMBOL SHORT_MA_PERIOD
                LONG_MA_PERIOD) as [t r].
    unfold value in Hall. simpl snd in Hall. unfold bind.
    destruct Hall as [-> | (klines & prices & _ & _ & _ & _ & ->)];
      destruct (startswith _ _);
      solve [ eexists; exists None; left; reflexivity
            | eexists; eexists; right; reflexivity ].
  - intros ->. unfold handle_button_click.
    change (String.eqb (String.append "get_breakout_signal_" CRYPTO_SYMBOL)
              (String.append "get_price_" CRYPTO_SYMBOL)) with false.
    change (String.eqb (String.append "get_breakout_signal_" CRYPTO_SYMBOL)
              (String.append "get_ma_signal_" CRYPTO_SYMBOL)) with false.
    change (String.eqb (String.append "get_breakout_signal_" CRYPTO_SYMBOL)
              (String.append "get_breakout_signal_" CRYPTO_SYMBOL)) with true.
    cbv iota.
    destruct (breakout_texts client CRYPTO_SYMBOL BREAKOUT_LOOKBACK_PERIOD)
      as (signal & Hv & _).
    destruct (generate_breakout_signal client CRYPTO_SYMBOL
                BREAKOUT_LOOKBACK_PERIOD) as [t r].
    simpl in Hv. subst r. unfold bind.
    destruct (startswith signal "Errore"
              || String.eqb signal "Dati storici insufficienti per breakout");
      exists signal; [left | right]; reflexivity.
Qed.

(** ** The short average looks at the last candles only *)


